(** * django-oscar-systempay: the facade and the views, embedded in Rocq

    The development follows [systempay/facade.py] and [systempay/views.py].
    Python values are modelled as they are used there: POST and GET data are
    [QueryDict]s, form data and keyword arguments are dictionaries from
    strings to Python values, amounts are [Decimal]s obtained through a
    binary64 float, and every view runs in a state-and-exception monad over
    the database tables, the session and the message storage.

    Strings are ASCII text.  [int()] follows Python 3.6 and later (single
    underscores between digits are accepted). *)

From Stdlib Require Import ZArith QArith String Ascii List DecimalString.
From Stdlib Require Import Floats.SpecFloat.
From stdpp Require Import base option list sorting gmap strings.

Local Open Scope Z_scope.
Local Open Scope string_scope.

(** ** Python values *)

(** The values that occur in form data and keyword arguments. *)
Inductive pyval :=
  | PStr (s : string)
  | PInt (z : Z).

#[global] Instance pyval_eq_dec : EqDecision pyval.
Proof. solve_decision. Defined.

(** A Python [dict] with string keys; [d.get(k)] is [d !! k] and [None] is
    the missing option. *)
Abbreviation dict := (gmap string pyval).

(** [x or <empty string>] on an optional string attribute. *)
Definition or_empty (x : option string) : string :=
  match x with
  | Some s => s
  | None => EmptyString
  end.

(** ** Exceptions *)

Inductive Exn :=
  | SystemPayFormNotValid (msg : string)
  | SystemPayGatewayPaymentRejected (msg : string)
  | SystemPayGatewayParamError (code : option pyval)
  | SystemPayGatewayServerError (msg : string)
  | PaymentError (msg : string)
  | Http404 (msg : string)
  | OrderDoesNotExist
  | OrderMultipleObjectsReturned
  | KeyError (key : string)
  | UnboundLocalError (name : string)
  | AttributeError (name : string)
  | ValueError (msg : string)
  | OverflowError (msg : string)
  | RuntimeError (msg : string).

#[global] Instance Exn_eq_dec : EqDecision Exn.
Proof. solve_decision. Defined.

(** The outcome of a call: a value, or a raised exception. *)
Inductive Result (A : Type) :=
  | Ok (a : A)
  | Raise (e : Exn).
Arguments Ok {A} a.
Arguments Raise {A} e.

Definition is_Ok {A} (r : Result A) : bool :=
  match r with Ok _ => true | Raise _ => false end.

(** ** [int()] on strings *)

Module PyInt.

(** The characters [str.strip] and [int()] skip: tab, line feed, vertical
    tab, form feed, carriage return and space. *)
Definition is_space (a : ascii) : bool :=
  let n := N_of_ascii a in
  ((9 <=? n)%N && (n <=? 13)%N) || (n =? 32)%N.

Definition digit_of (a : ascii) : option Z :=
  let n := N_of_ascii a in
  if ((48 <=? n)%N && (n <=? 57)%N) then Some (Z.of_N n - 48) else None.

Fixpoint lstrip (s : string) : string :=
  match s with
  | String a s' => if is_space a then lstrip s' else s
  | EmptyString => EmptyString
  end.

Fixpoint all_space (s : string) : bool :=
  match s with
  | String a s' => is_space a && all_space s'
  | EmptyString => true
  end.

(** The digits after the first one: a digit, or one underscore followed by
    a digit; then only trailing white space may follow. *)
Fixpoint digits (acc : Z) (s : string) : option Z :=
  match s with
  | EmptyString => Some acc
  | String a s' =>
      match digit_of a with
      | Some d => digits (10 * acc + d) s'
      | None =>
          if Ascii.eqb a "_" then
            match s' with
            | String b s'' =>
                match digit_of b with
                | Some d => digits (10 * acc + d) s''
                | None => None
                end
            | EmptyString => None
            end
          else if all_space s then Some acc else None
      end
  end.

Definition unsigned (s : string) : option Z :=
  match s with
  | String a s' =>
      match digit_of a with
      | Some d => digits d s'
      | None => None
      end
  | EmptyString => None
  end.

(** [int(s)] in base ten; [None] stands for [ValueError]. *)
Definition parse (s : string) : option Z :=
  match lstrip s with
  | String "+" s' => unsigned s'
  | String "-" s' => Z.opp <$> unsigned s'
  | s' => unsigned s'
  end.

End PyInt.

(** [str(n)] for an integer. *)
Definition str_of_int (z : Z) : string :=
  NilZero.string_of_int (Z.to_int z).

(** [int(v)]: the identity on integers, the base-ten literal of a string. *)
Definition py_int (v : pyval) : Result Z :=
  match v with
  | PInt z => Ok z
  | PStr s =>
      match PyInt.parse s with
      | Some z => Ok z
      | None =>
          Raise (ValueError ("invalid literal for int() with base 10: '" ++ s ++ "'"))
      end
  end.

(** ["%s" % v]. *)
Definition py_str (v : option pyval) : string :=
  match v with
  | None => "None"
  | Some (PStr s) => s
  | Some (PInt z) => str_of_int z
  end.

(** ** Floats and decimals *)

(** binary64 *)
Definition prec : Z := 53.
Definition emax : Z := 1024.

(** The float of an integer, correctly rounded; too large an integer raises
    [OverflowError]. *)
Definition float_of_int (z : Z) : Result spec_float :=
  match binary_normalize prec emax z 0 false with
  | S754_infinity _ => Raise (OverflowError "int too large to convert to float")
  | f => Ok f
  end.

(** The literal [100.0]. *)
Definition float_100 : spec_float := S754_finite false 7036874417766400 (-46).

(** [decimal.Decimal]: sign, coefficient and exponent, or a special value. *)
Inductive Decimal :=
  | Dec (sign : bool) (coeff : N) (exp : Z)
  | DInfinity (sign : bool)
  | DNaN.

#[global] Instance Decimal_eq_dec : EqDecision Decimal.
Proof. solve_decision. Defined.

(** [m * 2^(-k)] in lowest terms: the numerator and the exponent of the
    denominator, as [float.as_integer_ratio] gives them. *)
Fixpoint strip_twos (m : positive) (k : nat) : positive * nat :=
  match k, m with
  | S k', xO m' => strip_twos m' k'
  | _, _ => (m, k)
  end.

Definition as_integer_ratio (m : positive) (e : Z) : N * nat :=
  match e with
  | Zneg p => let '(n, k) := strip_twos m (Pos.to_nat p) in (Npos n, k)
  | _ => (Z.to_N (Z.pos m * 2 ^ e), O)
  end.

(** [Decimal(f)] for a float [f]: the exact value of the float. *)
Definition Decimal_from_float (f : spec_float) : Decimal :=
  match f with
  | S754_zero s => Dec s 0 0
  | S754_infinity s => DInfinity s
  | S754_nan => DNaN
  | S754_finite s m e =>
      let '(n, k) := as_integer_ratio m e in
      Dec s (n * 5 ^ N.of_nat k) (- Z.of_nat k)
  end.

(** The number a finite decimal denotes. *)
Definition Decimal_value (d : Decimal) : option Q :=
  match d with
  | Dec s c e =>
      let c' := if s then - Z.of_N c else Z.of_N c in
      Some (match e with
            | Zneg p => Qmake c' (10 ^ p)
            | _ => inject_Z (c' * 10 ^ e)
            end)
  | _ => None
  end.

(** [D(0)] *)
Definition D0 : Decimal := Dec false 0 0.


(** ** Result and state-and-exception monads *)

Definition Result_bind {A B} (r : Result A) (k : A -> Result B) : Result B :=
  match r with
  | Ok a => k a
  | Raise e => Raise e
  end.

(** ** QueryDict *)

Module QueryDict.

(** The pairs of a request body or query string, in arrival order. *)
Definition t := list (string * string).

(** [q.get(k)], also [q[k]]: the last value sent for the key. *)
Fixpoint get (k : string) (q : t) : option string :=
  match q with
  | [] => None
  | (k', v) :: q' =>
      match get k q' with
      | Some v' => Some v'
      | None => if String.eqb k k' then Some v else None
      end
  end.

(** [k in q] *)
Definition contains (k : string) (q : t) : bool :=
  match get k q with Some _ => true | None => false end.

(** The keys [for k in q] visits. *)
Definition keys (q : t) : list string := remove_dups (q.*1).

(** [dict((k, q.get(k)) for k in q)], and the loop of [save_txn] that fills
    [d[k] = data.get(k)]. *)
Definition to_dict (q : t) : dict :=
  foldl (fun d k =>
           match get k q with
           | Some v => <[k := PStr v]> d
           | None => d
           end) ∅ (keys q).

End QueryDict.

(** ** The data model *)

(** Django forms: the bound data. *)
Record Form := { data : dict }.

Inductive Mode := MODE_SUBMIT | MODE_RETURN.

#[global] Instance Mode_eq_dec : EqDecision Mode.
Proof. solve_decision. Defined.

(** Modelled from the spec: [SystemPayTransaction.OPERATION_TYPE_DEBIT] and
    [OPERATION_TYPE_CREDIT] of models.py, which is not among the sources;
    the spec names the operation types DEBIT and CREDIT. *)
Definition OPERATION_TYPE_DEBIT : pyval := PStr "DEBIT".
Definition OPERATION_TYPE_CREDIT : pyval := PStr "CREDIT".

(** A row of the transaction table, with the attributes [save_txn] sets.
    Primary keys are given out in sequence: the row with key [id] is the
    [id]-th row of the table. *)
Record SystemPayTransaction := {
  id : nat;
  mode : Mode;
  operation_type : option pyval;
  trans_id : option pyval;
  trans_date : option pyval;
  order_number : option pyval;
  amount : Decimal;
  auth_result : option pyval;
  result : option pyval;
  raw_request : string;
  error_message : option string;
  date_created : Z
}.

Definition set_error_message (msg : string) (txn : SystemPayTransaction) : SystemPayTransaction :=
  {| id := id txn; mode := mode txn; operation_type := operation_type txn;
     trans_id := trans_id txn; trans_date := trans_date txn;
     order_number := order_number txn; amount := amount txn;
     auth_result := auth_result txn; result := result txn;
     raw_request := raw_request txn; error_message := Some msg;
     date_created := date_created txn |}.

(** The attributes of oscar's users, addresses and orders the facade reads. *)
Record User := {
  pk : Z;
  get_full_name : string;
  email : string
}.

Record Address := {
  title : option string;
  salutation : string;
  line1 : option string;
  line2 : option string;
  city : option string;
  state : option string;
  postcode : option string;
  country_iso_3166_1_a2 : string
}.

Record Order := {
  order_id : Z;
  number : string;
  total_incl_tax : Decimal;
  user : option User;
  billing_address : option Address;
  shipping_address : option Address
}.

(** oscar's payment source, with the keyword arguments [handle_ipn] gives. *)
Record Source := {
  source_type : string;
  currency : pyval;
  amount_allocated : Decimal;
  amount_debited : option Decimal;
  amount_refunded : option Decimal;
  reference : string
}.

Inductive Level := SUCCESS | ERROR.

Record Request := {
  POST : QueryDict.t;
  GET : QueryDict.t;
  user_is_superuser : bool
}.

Inductive Response :=
  | HttpResponse
  | HttpResponseBadRequest (content : string)
  | TemplateResponse (template_name : string) (order : Order)
      (submit_form : Form) (SYSTEMPAY_GATEWAY_URL : string).

(** Everything a request can read or change: the tables, the session and the
    messages of the client, the attributes of the view instance, the log,
    the exception being handled and the clock. *)
Record World := {
  txns : list SystemPayTransaction;
  orders : list Order;
  source_types : list (string * string);
  session : dict;
  messages : list (Level * string);
  view_order : option Order;
  view_form : option Form;
  payment_sources : list Source;
  payment_details : list (Z * list Source);
  logged : list string;
  exc_info : option Exn;
  now : Z
}.

Definition set_txns (x : list SystemPayTransaction) (w : World) : World :=
  {| txns := x; orders := orders w; source_types := source_types w;
     session := session w; messages := messages w; view_order := view_order w;
     view_form := view_form w; payment_sources := payment_sources w;
     payment_details := payment_details w; logged := logged w;
     exc_info := exc_info w; now := now w |}.

Definition set_source_types (x : list (string * string)) (w : World) : World :=
  {| txns := txns w; orders := orders w; source_types := x;
     session := session w; messages := messages w; view_order := view_order w;
     view_form := view_form w; payment_sources := payment_sources w;
     payment_details := payment_details w; logged := logged w;
     exc_info := exc_info w; now := now w |}.

Definition set_session (x : dict) (w : World) : World :=
  {| txns := txns w; orders := orders w; source_types := source_types w;
     session := x; messages := messages w; view_order := view_order w;
     view_form := view_form w; payment_sources := payment_sources w;
     payment_details := payment_details w; logged := logged w;
     exc_info := exc_info w; now := now w |}.

Definition set_messages (x : list (Level * string)) (w : World) : World :=
  {| txns := txns w; orders := orders w; source_types := source_types w;
     session := session w; messages := x; view_order := view_order w;
     view_form := view_form w; payment_sources := payment_sources w;
     payment_details := payment_details w; logged := logged w;
     exc_info := exc_info w; now := now w |}.

Definition set_view_order (x : option Order) (w : World) : World :=
  {| txns := txns w; orders := orders w; source_types := source_types w;
     session := session w; messages := messages w; view_order := x;
     view_form := view_form w; payment_sources := payment_sources w;
     payment_details := payment_details w; logged := logged w;
     exc_info := exc_info w; now := now w |}.

Definition set_view_form (x : option Form) (w : World) : World :=
  {| txns := txns w; orders := orders w; source_types := source_types w;
     session := session w; messages := messages w; view_order := view_order w;
     view_form := x; payment_sources := payment_sources w;
     payment_details := payment_details w; logged := logged w;
     exc_info := exc_info w; now := now w |}.

Definition set_payment_sources (x : list Source) (w : World) : World :=
  {| txns := txns w; orders := orders w; source_types := source_types w;
     session := session w; messages := messages w; view_order := view_order w;
     view_form := view_form w; payment_sources := x;
     payment_details := payment_details w; logged := logged w;
     exc_info := exc_info w; now := now w |}.

Definition set_payment_details (x : list (Z * list Source)) (w : World) : World :=
  {| txns := txns w; orders := orders w; source_types := source_types w;
     session := session w; messages := messages w; view_order := view_order w;
     view_form := view_form w; payment_sources := payment_sources w;
     payment_details := x; logged := logged w;
     exc_info := exc_info w; now := now w |}.

Definition set_logged (x : list string) (w : World) : World :=
  {| txns := txns w; orders := orders w; source_types := source_types w;
     session := session w; messages := messages w; view_order := view_order w;
     view_form := view_form w; payment_sources := payment_sources w;
     payment_details := payment_details w; logged := x;
     exc_info := exc_info w; now := now w |}.

Definition set_exc_info (x : option Exn) (w : World) : World :=
  {| txns := txns w; orders := orders w; source_types := source_types w;
     session := session w; messages := messages w; view_order := view_order w;
     view_form := view_form w; payment_sources := payment_sources w;
     payment_details := payment_details w; logged := logged w;
     exc_info := x; now := now w |}.

(** A computation that reads and changes the world and returns or raises.
    What was written before an exception stays written. *)
Definition M (A : Type) : Type := World -> Result A * World.

Definition ret {A} (a : A) : M A := fun w => (Ok a, w).

Definition raise {A} (e : Exn) : M A := fun w => (Raise e, w).

Definition bind {A B} (m : M A) (k : A -> M B) : M B :=
  fun w =>
    match m w with
    | (Ok a, w') => k a w'
    | (Raise e, w') => (Raise e, w')
    end.

Definition lift {A} (r : Result A) : M A := fun w => (r, w).

Definition gets {A} (f : World -> A) : M A := fun w => (Ok (f w), w).

Definition modify (f : World -> World) : M unit := fun w => (Ok tt, f w).

Notation "'let*' x ':=' m 'in' k" := (bind m (fun x => k))
  (at level 10, x name, m at level 100, k at level 200).

(** A bare [raise]: the exception being handled is raised again; without
    one, Python 3 raises [RuntimeError]. *)
Definition reraise {A} : M A :=
  fun w =>
    match exc_info w with
    | Some e => (Raise e, w)
    | None => (Raise (RuntimeError "No active exception to reraise"), w)
    end.

(** [try: body except ...: handler]. [handler e] is the clause that matches
    [e], if any; it runs with [e] as the exception being handled. *)
Definition try_except {A} (body : M A) (handler : Exn -> option (M A)) : M A :=
  fun w =>
    match body w with
    | (Ok a, w') => (Ok a, w')
    | (Raise e, w') =>
        match handler e with
        | Some h =>
            let '(r, w'') := h (set_exc_info (Some e) w') in
            (r, set_exc_info (exc_info w') w'')
        | None => (Raise e, w')
        end
    end.

(** ** What the facade and the views call outside these two files *)

(** gateway.py, forms.py, utils.py, models.py and exceptions.py of the
    package, Django and oscar are not among the sources; their functions are
    taken as they are called. *)
Class External := {
  (** [Gateway.get_submit_form], called with the amount and the keyword arguments *)
  gateway_get_submit_form : Decimal -> dict -> Form;
  (** [Gateway.sign(form)], as the form it leaves *)
  gateway_sign : Form -> Form;
  (** [Gateway.is_signature_valid(form)] *)
  gateway_is_signature_valid : Form -> bool;
  (** [Gateway.compute_signature(form)] *)
  gateway_compute_signature : Form -> string;
  (** [Gateway.URL] *)
  Gateway_URL : string;
  (** [form.is_valid()] *)
  form_is_valid : Form -> bool;
  (** [form.cleaned_data['signature']] of a valid form *)
  cleaned_data_signature : Form -> string;
  (** [utils.printable_form_errors(form)] *)
  printable_form_errors : Form -> string;
  (** [SystemPayTransaction.is_complete()] *)
  is_complete : SystemPayTransaction -> bool;
  (** the properties [currency] and [reference] of a transaction *)
  txn_currency : SystemPayTransaction -> pyval;
  txn_reference : SystemPayTransaction -> string;
  (** [inst.message]; [None] when the exception has no such attribute, as
      an exception of Python 3 that does not define it *)
  exn_message : Exn -> option string;
  (** [issubclass(SystemPayError, PaymentError)] *)
  SystemPayError_is_PaymentError : bool;
  (** [urllib.parse.urlencode] *)
  urlencode : dict -> string;
  (** [django.core.urlresolvers.reverse] *)
  reverse : string -> string;
  (** [CheckoutSessionMixin.checkout_session.flush()], on the session *)
  checkout_session_flush : dict -> dict
}.

(** Modelled from the spec: the exception classes of exceptions.py, which is
    not among the sources.  The four errors the facade raises are the
    package's own ([SystemPayError]); the spec's taxonomy (section 7) lists
    them as the gateway's errors. *)
Definition is_SystemPayError (e : Exn) : bool :=
  match e with
  | SystemPayFormNotValid _ | SystemPayGatewayPaymentRejected _
  | SystemPayGatewayParamError _ | SystemPayGatewayServerError _ => true
  | _ => false
  end.

Definition is_PaymentError `{External} (e : Exn) : bool :=
  match e with
  | PaymentError _ => true
  | _ => is_SystemPayError e && SystemPayError_is_PaymentError
  end.

(** Modelled from the spec: [Gateway.get_return_form], called with keyword arguments, of gateway.py,
    which is not among the sources; the inbound payload is copied verbatim
    into the form (spec, section 4.1). *)
Definition gateway_get_return_form (kwargs : dict) : Form := {| data := kwargs |}.

(** ** The transaction table *)

(** Modelled from the spec: [SystemPayTransaction.objects.create(...)] of
    models.py, which is not among the sources; every call persists one new
    record (spec, section 4.3), here with the next primary key and the
    time of the world's clock.  The operations read the clock; time passes
    between two requests ([tick]). *)
Definition objects_create (mode : Mode)
    (operation_type trans_id trans_date order_number : option pyval)
    (amount : Decimal) (auth_result result : option pyval) (raw_request : string)
    : M SystemPayTransaction :=
  fun w =>
    let txn := {| id := S (length (txns w)); mode := mode;
                  operation_type := operation_type; trans_id := trans_id;
                  trans_date := trans_date; order_number := order_number;
                  amount := amount; auth_result := auth_result; result := result;
                  raw_request := raw_request; error_message := None;
                  date_created := now w |} in
    (Ok txn, set_txns (txns w ++ [txn]) w).

(** Modelled from the spec: [txn.save()] on a record that is in the table;
    the row of its primary key is overwritten (spec, section 4.3,
    [attachError]). *)
Definition txn_save (txn : SystemPayTransaction) : M unit :=
  modify (fun w => set_txns (<[pred (id txn) := txn]> (txns w)) w).

(** [d.update(other)] *)
Definition update (d other : dict) : dict := other ∪ d.

(** ** facade.py *)

Module Facade.
Section Facade.
Context `{External}.

Definition get_order_number (form : Form) : option pyval :=
  data form !! "vads_order_id".

(** [D(int(form.data.get('vads_amount', '0'))/100.0)]: the integer becomes a
    float, the division is the binary64 one, and [D] takes the exact value of
    the quotient. *)
Definition get_total_incl_tax (form : Form) : Result Decimal :=
  Result_bind (py_int (default (PStr "0") (data form !! "vads_amount"))) (fun n =>
  Result_bind (float_of_int n) (fun x =>
  Ok (Decimal_from_float (SFdiv prec emax x float_100)))).

Definition get_result (form : Form) : option pyval :=
  data form !! "vads_result".

Definition get_extra_result (form : Form) : option pyval :=
  data form !! "vads_extra_result".

Definition get_auth_result (form : Form) : option pyval :=
  data form !! "vads_auth_result".

Definition user_params (u : User) (params : dict) : dict :=
  <["vads_cust_id" := PInt (pk u)]>
    (<["vads_cust_email" := PStr (email u)]>
       (<["vads_cust_name" := PStr (get_full_name u)]> params)).

Definition billing_params (a : Address) (params : dict) : dict :=
  <["vads_cust_country" := PStr (country_iso_3166_1_a2 a)]>
    (<["vads_cust_zip" := PStr (or_empty (postcode a))]>
       (<["vads_cust_state" := PStr (or_empty (state a))]>
          (<["vads_cust_city" := PStr (or_empty (city a))]>
             (<["vads_cust_address" := PStr (or_empty (line1 a))]>
                (<["vads_cust_title" := PStr (or_empty (title a))]> params))))).

Definition shipping_params (a : Address) (params : dict) : dict :=
  <["vads_ship_to_country" := PStr (country_iso_3166_1_a2 a)]>
    (<["vads_ship_to_zip" := PStr (or_empty (postcode a))]>
       (<["vads_ship_to_state" := PStr (or_empty (state a))]>
          (<["vads_ship_to_city" := PStr (or_empty (city a))]>
             (<["vads_ship_to_street2" := PStr (or_empty (line2 a))]>
                (<["vads_ship_to_street" := PStr (or_empty (line1 a))]>
                   (<["vads_ship_to_name" := PStr (salutation a)]> params)))))).

Definition get_submit_form_populated_with_order (order : Order) (kwargs : dict) : Form :=
  let params : dict := ∅ in
  let params := <["vads_order_id" := PStr (number order)]> params in
  let params := match user order with
                | Some u => user_params u params
                | None => params
                end in
  let params := match billing_address order with
                | Some a => billing_params a params
                | None => params
                end in
  let params := match shipping_address order with
                | Some a => shipping_params a params
                | None => params
                end in
  let params := update params kwargs in
  let form := gateway_get_submit_form (total_incl_tax order) params in
  gateway_sign form.

Definition get_return_form_populated_with_request (request : Request) : Form :=
  gateway_get_return_form (QueryDict.to_dict (POST request)).

(** [data] is a QueryDict ([inl]) or a dictionary ([inr]). *)
Definition save_txn (order_number : option pyval) (amount : Decimal)
    (data : QueryDict.t + dict) (mode : Mode) : M SystemPayTransaction :=
  let d : dict :=
    match data with
    | inl q => QueryDict.to_dict q
    | inr other => update ∅ other
    end in
  objects_create mode (d !! "vads_operation_type") (d !! "vads_trans_id")
    (d !! "vads_trans_date") order_number amount (d !! "vads_auth_result")
    (d !! "vads_result") (urlencode d).

Definition save_submit_txn (order_number : option pyval) (amount : Decimal)
    (form : Form) : M SystemPayTransaction :=
  save_txn order_number amount (inr (data form)) MODE_SUBMIT.

Definition save_txn_notification (order_number : option pyval) (amount : Decimal)
    (request : Request) : M SystemPayTransaction :=
  save_txn order_number amount (inl (POST request)) MODE_RETURN.

Definition result_is (txn : SystemPayTransaction) (code : string) : bool :=
  bool_decide (result txn = Some (PStr code)).

Definition handle_request (request : Request) : M SystemPayTransaction :=
  let form := get_return_form_populated_with_request request in
  let order_number := get_order_number form in
  let* total_incl_tax := lift (get_total_incl_tax form) in
  let* txn := save_txn_notification order_number total_incl_tax request in
  if negb (form_is_valid form) then
    let txn := set_error_message (printable_form_errors form) txn in
    let* _ := txn_save txn in
    raise (SystemPayFormNotValid
             ("The data received are not complete: " ++ printable_form_errors form
              ++ ". See the transaction record #" ++ str_of_int (Z.of_nat (id txn))
              ++ " for more details"))
  else if negb (gateway_is_signature_valid form) then
    let txn := set_error_message
                 ("Signature not valid. Get '" ++ cleaned_data_signature form
                  ++ "' instead of '" ++ gateway_compute_signature form ++ "'") txn in
    let* _ := txn_save txn in
    raise (SystemPayFormNotValid
             ("Incorrect signature. Check SystemPayTransaction #"
              ++ str_of_int (Z.of_nat (id txn)) ++ " for more details"))
  else if negb (is_complete txn) then
    if result_is txn "02" then
      raise (SystemPayGatewayPaymentRejected "The shop must contact the bank")
    else if result_is txn "05" then
      raise (SystemPayGatewayPaymentRejected "The payment has been rejected")
    else if result_is txn "30" then
      let extra_result := get_extra_result form in
      raise (SystemPayGatewayParamError extra_result)
    else if result_is txn "96" then
      raise (SystemPayGatewayServerError "Technical error while processing the payment")
    else if result_is txn "17" then
      reraise
    else
      raise (SystemPayGatewayServerError ("Unknown error: " ++ py_str (result txn)))
  else ret txn.

End Facade.
End Facade.

(** ** views.py *)

(** [q[k]] on a QueryDict *)
Definition getitem (k : string) (q : QueryDict.t) : M string :=
  match QueryDict.get k q with
  | Some v => ret v
  | None => raise (KeyError k)
  end.

(** [Order.objects.get(...)]: the single row that matches, or
    [Order.DoesNotExist], or [Order.MultipleObjectsReturned]. *)
Definition Order_objects_get (P : Order -> Prop) `{forall o, Decision (P o)} : M Order :=
  fun w =>
    match filter P (orders w) with
    | [] => (Raise OrderDoesNotExist, w)
    | [o] => (Ok o, w)
    | _ => (Raise OrderMultipleObjectsReturned, w)
    end.

(** [Order.objects.get(number=v)]; no order has the number [None]. *)
Definition Order_get_by_number (v : option pyval) : M Order :=
  Order_objects_get (fun o => is_Some v /\ number o = py_str v).

(** [Order.objects.get(id=v)] and [Order.objects.get(pk=v)]; the key is
    turned into an integer first. *)
Definition Order_get_by_id (v : pyval) : M Order :=
  let* z := lift (py_int v) in
  Order_objects_get (fun o => order_id o = z).

Definition messages_add (level : Level) (text : string) : M unit :=
  modify (fun w => set_messages (messages w ++ [(level, text)]) w).

Definition session_set (k : string) (v : pyval) : M unit :=
  modify (fun w => set_session (<[k := v]> (session w)) w).

Definition logger_error (text : string) : M unit :=
  modify (fun w => set_logged (logged w ++ [text]) w).

(** The lookup both [SecureRedirectView.get_object] and
    [ResponseView.get_order] start with: a superuser may name the order in
    the query string. *)
Definition superuser_order (request : Request) : M (option Order) :=
  if user_is_superuser request then
    if QueryDict.contains "order_number" (GET request) then
      let* v := getitem "order_number" (GET request) in
      let* order := Order_get_by_number (Some (PStr v)) in
      ret (Some order)
    else if QueryDict.contains "order_id" (GET request) then
      let* v := getitem "order_id" (GET request) in
      let* order := Order_get_by_id (PStr v) in
      ret (Some order)
    else ret None
  else ret None.

Module SecureRedirectView.
Section SecureRedirectView.
Context `{External}.

Definition template_name : string := "systempay/secure_redirect.html".

Definition get_object (request : Request) : M Order :=
  let* cached := gets view_order in
  match cached with
  | Some order => ret order
  | None =>
      let* order := superuser_order request in
      let* order :=
        match order with
        | Some order => ret order
        | None =>
            let* s := gets session in
            match s !! "checkout_order_id" with
            | Some v => Order_get_by_id v
            | None => raise (Http404 "No order found")
            end
        end in
      let* _ := modify (set_view_order (Some order)) in
      ret order
  end.

Definition get_form (request : Request) : M Form :=
  let* cached := gets view_form in
  match cached with
  | Some form => ret form
  | None =>
      let* order := get_object request in
      let form := Facade.get_submit_form_populated_with_order order ∅ in
      let* _ := modify (set_view_form (Some form)) in
      ret form
  end.

(** [DetailView.get]: the object and the context of [get_context_data],
    rendered with the template. *)
Definition super_get (request : Request) : M Response :=
  let* order := get_object request in
  let* form := get_form request in
  ret (TemplateResponse template_name order form Gateway_URL).

Definition get (request : Request) : M Response :=
  let* order := get_object request in
  let* form := get_form request in
  let* _ := Facade.save_submit_txn (Some (PStr (number order)))
              (total_incl_tax order) form in
  let* response := super_get request in
  let* _ := modify (fun w => set_session (checkout_session_flush (session w)) w) in
  ret response.

(** [as_view()] on a request of method GET, the only method the class
    handles: every request is served by a new instance of the view, whose
    [_order] and [_form] are [None]. *)
Definition as_view (request : Request) : M Response :=
  fun w => get request (set_view_form None (set_view_order None w)).

End SecureRedirectView.
End SecureRedirectView.

Module ResponseView.

Definition get_order (request : Request) : M Order :=
  let* order := superuser_order request in
  match order with
  | Some order => ret order
  | None =>
      let order_number :=
        if QueryDict.contains "vads_order_id" (POST request) then
          QueryDict.get "vads_order_id" (POST request)
        else if QueryDict.contains "vads_order_id" (GET request) then
          QueryDict.get "vads_order_id" (GET request)
        else None in
      match order_number with
      | None | Some EmptyString => raise (Http404 "No order found")
      | Some order_number =>
          try_except (Order_get_by_number (Some (PStr order_number)))
            (fun e =>
               if bool_decide (e = OrderDoesNotExist) then
                 Some (raise (Http404 "The page requested seems outdated"))
               else None)
      end
  end.

End ResponseView.

Module ReturnResponseView.
Section ReturnResponseView.
Context `{External}.

Definition pending_message : string :=
  "No response received from your bank for the moment. Be patient, we'll get back to you as soon as we receive it.".

Definition validated_message : string :=
  "Your payment has been successfully validated.".

Definition rejected_message : string :=
  "Your payment has been rejected for the reason. You will not be charged. Contact the support for more details.".

(** The order of [order_by('-date_created')]. *)
Definition newer_first (a b : SystemPayTransaction) : Prop :=
  date_created b <= date_created a.

#[global] Instance newer_first_dec a b : Decision (newer_first a b).
Proof. unfold newer_first. apply _. Defined.

(** [filter(mode=MODE_RETURN, order_number=...).order_by('-date_created')[:1]] *)
Definition latest_return (order : Order) (table : list SystemPayTransaction)
    : list SystemPayTransaction :=
  take 1
    (merge_sort newer_first
       (filter (fun txn => mode txn = MODE_RETURN
                           /\ order_number txn = Some (PStr (number order))) table)).

Definition get_redirect_url (request : Request) : M string :=
  let* order := ResponseView.get_order request in
  let* table := gets txns in
  let* _ :=
    match latest_return order table with
    | [] => messages_add ERROR pending_message
    | txn :: _ =>
        if is_complete txn then messages_add SUCCESS validated_message
        else messages_add ERROR rejected_message
    end in
  let* _ := session_set "checkout_order_id" (PInt (order_id order)) in
  ret (reverse "checkout:thank-you").

End ReturnResponseView.
End ReturnResponseView.

Module HandleIPN.
Section HandleIPN.
Context `{External}.

(** [SourceType.objects.get_or_create(code='systempay', name='SystemPay')] *)
Definition SourceType_get_or_create (code name : string) : M (string * string) :=
  fun w =>
    if bool_decide ((code, name) ∈ source_types w) then (Ok (code, name), w)
    else (Ok (code, name), set_source_types (source_types w ++ [(code, name)]) w).

(** oscar's [OrderPlacementMixin.add_payment_source]: the source joins the
    sources of the view. *)
Definition add_payment_source (source : Source) : M unit :=
  modify (fun w => set_payment_sources (payment_sources w ++ [source]) w).

(** oscar's [OrderPlacementMixin.save_payment_details]: the sources of the
    view are saved for the order. *)
Definition save_payment_details (order : Order) : M unit :=
  modify (fun w =>
            set_payment_details (payment_details w ++ [(order_id order, payment_sources w)]) w).

(** The statements of the [try] block after [txn] is bound. *)
Definition complete_payment (txn : SystemPayTransaction) : M unit :=
  let* order := Order_get_by_number (order_number txn) in
  let* source_type := SourceType_get_or_create "systempay" "SystemPay" in
  let* _ :=
    if bool_decide (operation_type txn = Some OPERATION_TYPE_DEBIT) then
      add_payment_source
        {| source_type := fst source_type; currency := txn_currency txn;
           amount_allocated := D0; amount_debited := Some (amount txn);
           amount_refunded := None; reference := txn_reference txn |}
    else if bool_decide (operation_type txn = Some OPERATION_TYPE_CREDIT) then
      add_payment_source
        {| source_type := fst source_type; currency := txn_currency txn;
           amount_allocated := D0; amount_debited := None;
           amount_refunded := Some (amount txn); reference := txn_reference txn |}
    else
      raise (PaymentError ("Unknown operation type '" ++ py_str (operation_type txn) ++ "'")) in
  save_payment_details order.

(** The [try] block is written in two parts, split where [txn] is bound: the
    [except] clauses are the same for both, and the second clause reads
    [txn], which is unbound while [handle_request] runs. *)
Definition handle_ipn (request : Request) : M unit :=
  let* txn :=
    try_except (Facade.handle_request request)
      (fun e =>
         if is_SystemPayError e then Some reraise
         else if bool_decide (e = OrderDoesNotExist) then
           Some (raise (UnboundLocalError "txn"))
         else None) in
  try_except (complete_payment txn)
    (fun e =>
       if is_SystemPayError e then Some reraise
       else if bool_decide (e = OrderDoesNotExist) then
         Some (logger_error ("Unable to retrieve Order #" ++ py_str (order_number txn)))
       else None).

Definition post (request : Request) : M Response :=
  let* returned :=
    try_except (let* _ := handle_ipn request in ret None)
      (fun inst =>
         if is_PaymentError inst then
           Some (match exn_message inst with
                 | Some message => ret (Some (HttpResponseBadRequest message))
                 | None => raise (AttributeError "message")
                 end)
         else None) in
  match returned with
  | Some response => ret response
  | None => ret HttpResponse
  end.

Definition get (request : Request) : M Response :=
  if user_is_superuser request then
    post {| POST := GET request; GET := GET request;
            user_is_superuser := user_is_superuser request |}
  else ret HttpResponse.

End HandleIPN.
End HandleIPN.

(** ** A test double for the collaborators *)

Module Demo.

(** A form is valid when it has a result code; its signature is valid when
    the field [signature] holds the one expected signature.  The package's
    errors that are made with a message have the attribute [message];
    oscar's [PaymentError], a plain exception, has not. *)
Definition external : External := {|
  gateway_get_submit_form := fun amount params => {| data := params |};
  gateway_sign := fun form => {| data := <["signature" := PStr "c0ffee"]> (data form) |};
  gateway_is_signature_valid :=
    fun form => bool_decide (data form !! "signature" = Some (PStr "c0ffee"));
  gateway_compute_signature := fun _ => "c0ffee";
  Gateway_URL := "https://paiement.systempay.fr/vads-payment/";
  form_is_valid := fun form => bool_decide (is_Some (data form !! "vads_result"));
  cleaned_data_signature := fun form => py_str (data form !! "signature");
  printable_form_errors := fun _ => "vads_result: This field is required.";
  is_complete := fun txn => bool_decide (result txn = Some (PStr "00"));
  txn_currency := fun _ => PInt 978;
  txn_reference := fun txn => py_str (trans_id txn);
  exn_message :=
    fun e =>
      match e with
      | SystemPayFormNotValid msg | SystemPayGatewayPaymentRejected msg
      | SystemPayGatewayServerError msg => Some msg
      | _ => None
      end;
  SystemPayError_is_PaymentError := true;
  urlencode := fun d => String.concat "&" ((fun kv => kv.1 ++ "=" ++ py_str (Some kv.2)) <$> map_to_list d);
  reverse := fun name => "/" ++ name;
  checkout_session_flush := fun _ => ∅
|}.

Definition order_100 : Order := {|
  order_id := 7;
  number := "ORD-100";
  total_incl_tax := Dec false 2599 (-2);
  user := Some {| pk := 3; get_full_name := "Ada Lovelace"; email := "ada@example.org" |};
  billing_address := None;
  shipping_address := None
|}.

Definition empty_world : World := {|
  txns := [];
  orders := [order_100];
  source_types := [];
  session := ∅;
  messages := [];
  view_order := None;
  view_form := None;
  payment_sources := [];
  payment_details := [];
  logged := [];
  exc_info := None;
  now := 0
|}.

Definition notification (fields : QueryDict.t) : Request :=
  {| POST := fields; GET := []; user_is_superuser := false |}.

End Demo.

(** ** Vocabulary of the properties *)

(** The Python class of an exception. *)
Definition class_name (e : Exn) : string :=
  match e with
  | SystemPayFormNotValid _ => "SystemPayFormNotValid"
  | SystemPayGatewayPaymentRejected _ => "SystemPayGatewayPaymentRejected"
  | SystemPayGatewayParamError _ => "SystemPayGatewayParamError"
  | SystemPayGatewayServerError _ => "SystemPayGatewayServerError"
  | PaymentError _ => "PaymentError"
  | Http404 _ => "Http404"
  | OrderDoesNotExist => "Order.DoesNotExist"
  | OrderMultipleObjectsReturned => "Order.MultipleObjectsReturned"
  | KeyError _ => "KeyError"
  | UnboundLocalError _ => "UnboundLocalError"
  | AttributeError _ => "AttributeError"
  | ValueError _ => "ValueError"
  | OverflowError _ => "OverflowError"
  | RuntimeError _ => "RuntimeError"
  end.

(** The outcomes of [handle_request] that carry the payment result: the
    record is returned, or one of the errors of the result codes is raised. *)
Definition trusts_result (outcome : Result SystemPayTransaction) : bool :=
  match outcome with
  | Ok _ => true
  | Raise (SystemPayGatewayPaymentRejected _) => true
  | Raise (SystemPayGatewayParamError _) => true
  | Raise (SystemPayGatewayServerError _) => true
  | _ => false
  end.

(** The SUBMIT records of an order. *)
Definition submit_records (order_no : string) (table : list SystemPayTransaction)
    : list SystemPayTransaction :=
  filter (fun txn => mode txn = MODE_SUBMIT
                     /\ order_number txn = Some (PStr order_no)) table.

(** The result codes the classifier names. *)
Definition documented_codes : list string := ["02"; "05"; "30"; "96"; "17"].

(** ** The rest of the two files *)

(** The dictionary [params] that [get_submit_form_populated_with_order]
    builds and hands to the gateway (facade.py, lines 58 to 86). *)
Definition submit_params (order : Order) (kwargs : dict) : dict :=
  let params : dict := ∅ in
  let params := <["vads_order_id" := PStr (number order)]> params in
  let params := match user order with
                | Some u => Facade.user_params u params
                | None => params
                end in
  let params := match billing_address order with
                | Some a => Facade.billing_params a params
                | None => params
                end in
  let params := match shipping_address order with
                | Some a => Facade.shipping_params a params
                | None => params
                end in
  update params kwargs.

(** The keys each part of an order contributes. *)
Definition user_keys : gset string :=
  {[ "vads_cust_name"; "vads_cust_email"; "vads_cust_id" ]}.

Definition billing_keys : gset string :=
  {[ "vads_cust_title"; "vads_cust_address"; "vads_cust_city";
     "vads_cust_state"; "vads_cust_zip"; "vads_cust_country" ]}.

Definition shipping_keys : gset string :=
  {[ "vads_ship_to_name"; "vads_ship_to_street"; "vads_ship_to_street2";
     "vads_ship_to_city"; "vads_ship_to_state"; "vads_ship_to_zip";
     "vads_ship_to_country" ]}.

Definition keys_if {A} (x : option A) (keys : gset string) : gset string :=
  match x with Some _ => keys | None => ∅ end.

#[global] Instance SystemPayTransaction_eq_dec : EqDecision SystemPayTransaction.
Proof. solve_decision. Defined.

(** Time passes: the clock of the world moves on by [seconds]. *)
Definition tick (seconds : Z) (w : World) : World :=
  {| txns := txns w; orders := orders w; source_types := source_types w;
     session := session w; messages := messages w; view_order := view_order w;
     view_form := view_form w; payment_sources := payment_sources w;
     payment_details := payment_details w; logged := logged w;
     exc_info := exc_info w; now := now w + seconds |}.

(** [HttpResponseRedirect(url)] *)
Inductive Redirect := HttpResponseRedirect (url : string).

Module PlaceOrderView.
Section PlaceOrderView.
Context `{External}.

Definition get_success_url : string := reverse "systempay:secure-redirect".

(** The payment is left to the notification: nothing is done. *)
Definition handle_payment (order_number : string) (total_incl_tax : Decimal) : M unit :=
  ret tt.

Definition handle_successful_order (order : Order) : M Redirect :=
  let* _ := session_set "checkout_order_id" (PInt (order_id order)) in
  ret (HttpResponseRedirect get_success_url).

End PlaceOrderView.
End PlaceOrderView.

(** The amount of [get_total_incl_tax] for the integer [n] of the field. *)
Definition total_of_int (n : Z) : Result Decimal :=
  Result_bind (float_of_int n) (fun x =>
  Ok (Decimal_from_float (SFdiv prec emax x float_100))).

(** The amount for [n] minor units is exactly [n/100]. *)
Definition amount_exact (n : Z) : bool :=
  match total_of_int n with
  | Ok d =>
      match Decimal_value d with
      | Some q => Qeq_bool q (n # 100)
      | None => false
      end
  | Raise _ => false
  end.

(** [amount_exact] on [n], [n + 25], ..., [n + 25 * (count - 1)]. *)
Fixpoint quarters_exact (count : nat) (n : Z) : bool :=
  match count with
  | O => true
  | S count' => amount_exact n && quarters_exact count' (n + 25)
  end.

(** * Properties *)

(** ** Python's numbers on examples *)

Example int_2599 : py_int (PStr "2599") = Ok 2599.
Proof. reflexivity. Qed.

Example int_spaces_sign_underscore : py_int (PStr " +1_000 ") = Ok 1000.
Proof. reflexivity. Qed.

Example int_rejects :
  Forall (fun s => is_Ok (py_int (PStr s)) = false)
    ["abc"; "12.5"; "1__0"; "_1"; "1_"; "+ 5"; "0x10"; "1e3"; EmptyString].
Proof. repeat constructor. Qed.

Example float_100_is_100 : float_of_int 100 = Ok float_100.
Proof. reflexivity. Qed.

(** [(2599/100.0).as_integer_ratio()] is
    [(7315534644709949, 281474976710656)], and 281474976710656 is [2**48]. *)
Example ratio_of_2599_over_100 :
  match Result_bind (float_of_int 2599) (fun x => Ok (SFdiv prec emax x float_100)) with
  | Ok (S754_finite s m e) =>
      s = false /\ as_integer_ratio m e = (7315534644709949%N, 48%nat)
  | _ => False
  end.
Proof. vm_compute. split; reflexivity. Qed.

Example Decimal_of_half : Decimal_from_float (S754_finite false 4503599627370496 (-53)) = Dec false 5 (-1).
Proof. vm_compute. reflexivity. Qed.

(** ** Dictionaries and query strings *)

Lemma QueryDict_get_Some_key k (q : QueryDict.t) :
  is_Some (QueryDict.get k q) -> k ∈ q.*1.
Proof.
  induction q as [|[k' v'] q IH]; simpl.
  - intros [? ?]. discriminate.
  - rewrite elem_of_cons. destruct (QueryDict.get k q) eqn:E.
    + intros _. right. apply IH. eauto.
    + destruct (String.eqb k k') eqn:Ek.
      * apply String.eqb_eq in Ek. intros _. by left.
      * intros [? ?]. discriminate.
Qed.

Lemma to_dict_fold_lookup (q : QueryDict.t) (ks : list string) (d : dict) k :
  foldl (fun d k => match QueryDict.get k q with
                    | Some v => <[k := PStr v]> d
                    | None => d
                    end) d ks !! k
  = if decide (k ∈ ks) then
      match QueryDict.get k q with Some v => Some (PStr v) | None => d !! k end
    else d !! k.
Proof.
  revert d. induction ks as [|k0 ks IH]; intros d; simpl.
  - destruct (decide (k ∈ [])) as [Hin|_]; [|done]. by apply not_elem_of_nil in Hin.
  - rewrite IH. destruct (decide (k = k0)) as [->|Hne].
    + destruct (decide (k0 ∈ k0 :: ks)) as [_|Hnin]; [|exfalso; apply Hnin; left].
      destruct (QueryDict.get k0 q) eqn:E.
      * rewrite lookup_insert_eq. by destruct (decide (k0 ∈ ks)).
      * by destruct (decide (k0 ∈ ks)).
    + assert (Hd : (match QueryDict.get k0 q with
                    | Some v => <[k0 := PStr v]> d
                    | None => d
                    end) !! k = d !! k).
      { destruct (QueryDict.get k0 q); [|done]. by rewrite lookup_insert_ne. }
      rewrite Hd. destruct (decide (k ∈ ks)) as [Hin|Hnin].
      * destruct (decide (k ∈ k0 :: ks)) as [_|Hn]; [done|]. exfalso. apply Hn. by right.
      * destruct (decide (k ∈ k0 :: ks)) as [Hin|_]; [|done].
        apply elem_of_cons in Hin as [?|?]; [congruence|done].
Qed.

(** The dictionary made from a QueryDict maps every key to the last value
    that was sent for it. *)
Lemma to_dict_lookup (q : QueryDict.t) k :
  QueryDict.to_dict q !! k = PStr <$> QueryDict.get k q.
Proof.
  unfold QueryDict.to_dict, QueryDict.keys. rewrite to_dict_fold_lookup.
  destruct (QueryDict.get k q) eqn:E; simpl.
  - destruct (decide _) as [_|Hn]; [done|]. exfalso. apply Hn.
    apply elem_of_remove_dups, QueryDict_get_Some_key. rewrite E. eauto.
  - rewrite lookup_empty. by destruct (decide _).
Qed.

(** ** The transaction table *)

Lemma set_exc_info_restore e (w : World) :
  set_exc_info (exc_info w) (set_exc_info e w) = w.
Proof. by destruct w. Qed.

Lemma filter_none {A} (P : A -> Prop) `{forall x, Decision (P x)} (l : list A) :
  (forall x, x ∈ l -> ~ P x) -> filter P l = [].
Proof.
  induction l as [|x l IH]; intros Hl; [done|].
  rewrite filter_cons_False; [|apply Hl; left].
  apply IH. intros y Hy. apply Hl. by right.
Qed.

Lemma insert_last_row (table : list SystemPayTransaction) txn txn' :
  <[pred (S (length table)) := txn']> (table ++ [txn])%list = (table ++ [txn'])%list.
Proof.
  simpl. rewrite insert_app_r_alt by lia.
  by rewrite Nat.sub_diag.
Qed.

Section FacadeProperties.
Context `{External}.

(** [save_txn_notification] always appends one RETURN record that holds the
    arguments and the fields of the payload. *)
Lemma save_txn_notification_run order_no amt request w :
  exists txn,
    Facade.save_txn_notification order_no amt request w
      = (Ok txn, set_txns (txns w ++ [txn]) w)
    /\ id txn = S (length (txns w))
    /\ mode txn = MODE_RETURN
    /\ amount txn = amt
    /\ order_number txn = order_no
    /\ result txn = PStr <$> QueryDict.get "vads_result" (POST request)
    /\ error_message txn = None.
Proof.
  eexists. unfold Facade.save_txn_notification, Facade.save_txn, objects_create.
  split; [reflexivity|]. simpl. rewrite to_dict_lookup. done.
Qed.

(** [handle_request], once the amount is read: the record is created, and
    then the three checks decide. *)
Lemma handle_request_run request w amt txn w1 :
  let form := Facade.get_return_form_populated_with_request request in
  Facade.get_total_incl_tax form = Ok amt ->
  Facade.save_txn_notification (Facade.get_order_number form) amt request w = (Ok txn, w1) ->
  Facade.handle_request request w =
    if negb (form_is_valid form) then
      (Raise (SystemPayFormNotValid
                ("The data received are not complete: " ++ printable_form_errors form
                 ++ ". See the transaction record #" ++ str_of_int (Z.of_nat (id txn))
                 ++ " for more details")),
       set_txns (<[pred (id txn) := set_error_message (printable_form_errors form) txn]> (txns w1)) w1)
    else if negb (gateway_is_signature_valid form) then
      (Raise (SystemPayFormNotValid
                ("Incorrect signature. Check SystemPayTransaction #"
                 ++ str_of_int (Z.of_nat (id txn)) ++ " for more details")),
       set_txns (<[pred (id txn) :=
                     set_error_message
                       ("Signature not valid. Get '" ++ cleaned_data_signature form
                        ++ "' instead of '" ++ gateway_compute_signature form ++ "'") txn]>
                   (txns w1)) w1)
    else if negb (is_complete txn) then
      if Facade.result_is txn "02" then
        (Raise (SystemPayGatewayPaymentRejected "The shop must contact the bank"), w1)
      else if Facade.result_is txn "05" then
        (Raise (SystemPayGatewayPaymentRejected "The payment has been rejected"), w1)
      else if Facade.result_is txn "30" then
        (Raise (SystemPayGatewayParamError (Facade.get_extra_result form)), w1)
      else if Facade.result_is txn "96" then
        (Raise (SystemPayGatewayServerError "Technical error while processing the payment"), w1)
      else if Facade.result_is txn "17" then
        reraise w1
      else
        (Raise (SystemPayGatewayServerError ("Unknown error: " ++ py_str (result txn))), w1)
    else (Ok txn, w1).
Proof.
  intros form Hamt Hsave. unfold Facade.handle_request, bind, lift.
  fold form. rewrite Hamt, Hsave.
  destruct (form_is_valid form); simpl; [|reflexivity].
  destruct (gateway_is_signature_valid form); simpl; [|reflexivity].
  destruct (is_complete txn); simpl; [reflexivity|].
  repeat (match goal with |- context [Facade.result_is ?t ?c] =>
            destruct (Facade.result_is t c) end; [reflexivity|]).
  reflexivity.
Qed.

(** When the amount cannot be read, nothing else happens. *)
Lemma handle_request_amount_error request w e :
  Facade.get_total_incl_tax (Facade.get_return_form_populated_with_request request) = Raise e ->
  Facade.handle_request request w = (Raise e, w).
Proof.
  intros Hamt. unfold Facade.handle_request, bind, lift. by rewrite Hamt.
Qed.

(** The amount is read or [int()] and the conversion to a float fail. *)
Lemma get_total_incl_tax_errors form e :
  Facade.get_total_incl_tax form = Raise e ->
  class_name e = "ValueError" \/ class_name e = "OverflowError".
Proof.
  unfold Facade.get_total_incl_tax, Result_bind.
  destruct (py_int _) as [n|e1] eqn:Hn.
  - destruct (float_of_int n) as [x|e2] eqn:Hx; [discriminate|].
    intros [= <-]. unfold float_of_int in Hx.
    destruct (binary_normalize _ _ _ _ _); try discriminate.
    injection Hx as <-. by right.
  - intros [= <-]. unfold py_int in Hn.
    destruct (default _ _); [|discriminate].
    destruct (PyInt.parse s); [discriminate|]. injection Hn as <-. by left.
Qed.

End FacadeProperties.

Section ClassifierProperties.
Context `{External}.

(** C1. A request that passes the form and signature checks and whose record
    is not complete never returns the record: result code 02 raises
    PaymentRejected (the shop must contact the bank), 05 raises
    PaymentRejected, 30 raises ParamError with the extra result code, which
    is the last value the payload has for [vads_extra_result] ([None] when
    it has none), 96 raises ServerError, and every code that the classifier
    does not name raises ServerError with the unknown code in its message.
    The result code classified is the last value the payload has for
    [vads_result]. *)
Theorem result_classifier_table request w amt txn w1 :
  let form := Facade.get_return_form_populated_with_request request in
  Facade.get_total_incl_tax form = Ok amt ->
  Facade.save_txn_notification (Facade.get_order_number form) amt request w = (Ok txn, w1) ->
  form_is_valid form = true ->
  gateway_is_signature_valid form = true ->
  is_complete txn = false ->
  let outcome := fst (Facade.handle_request request w) in
  is_Ok outcome = false
  /\ result txn = PStr <$> QueryDict.get "vads_result" (POST request)
  /\ (result txn = Some (PStr "02") ->
      outcome = Raise (SystemPayGatewayPaymentRejected "The shop must contact the bank"))
  /\ (result txn = Some (PStr "05") ->
      outcome = Raise (SystemPayGatewayPaymentRejected "The payment has been rejected"))
  /\ (result txn = Some (PStr "30") ->
      outcome = Raise (SystemPayGatewayParamError
                         (PStr <$> QueryDict.get "vads_extra_result" (POST request))))
  /\ (result txn = Some (PStr "96") ->
      outcome = Raise (SystemPayGatewayServerError
                         "Technical error while processing the payment"))
  /\ ((forall code, code ∈ documented_codes -> result txn <> Some (PStr code)) ->
      outcome = Raise (SystemPayGatewayServerError
                         ("Unknown error: " ++ py_str (result txn)))).
Proof.
  intros form Hamt Hsave Hvalid Hsig Hcomplete outcome. subst outcome.
  rewrite (handle_request_run request w amt txn w1 Hamt Hsave).
  fold form. rewrite Hvalid, Hsig, Hcomplete. simpl.
  assert (Hextra : Facade.get_extra_result form
                   = PStr <$> QueryDict.get "vads_extra_result" (POST request)).
  { unfold Facade.get_extra_result, form, Facade.get_return_form_populated_with_request,
      gateway_get_return_form. simpl. apply to_dict_lookup. }
  rewrite Hextra.
  unfold Facade.result_is.
  split.
  { repeat case_bool_decide; try reflexivity.
    unfold reraise. by destruct (exc_info w1). }
  split.
  { destruct (save_txn_notification_run (Facade.get_order_number form) amt request w)
      as (txn' & Hsave' & _ & _ & _ & _ & Hresult & _).
    rewrite Hsave in Hsave'. by injection Hsave' as -> _. }
  refine (conj _ (conj _ (conj _ (conj _ _)))); intros Hcode.
  - rewrite Hcode. reflexivity.
  - rewrite Hcode. reflexivity.
  - rewrite Hcode. reflexivity.
  - rewrite Hcode. reflexivity.
  - repeat case_bool_decide; try reflexivity;
      exfalso; (eapply Hcode; [|eassumption]); unfold documented_codes; set_solver.
Qed.

End ClassifierProperties.

Lemma result_classifier_table_witness :
  let request := Demo.notification
                   [("vads_order_id", "ORD-100"); ("vads_amount", "2599");
                    ("vads_result", "30"); ("vads_extra_result", "09");
                    ("signature", "c0ffee")] in
  fst (@Facade.handle_request Demo.external request Demo.empty_world)
  = Raise (SystemPayGatewayParamError (Some (PStr "09"))).
Proof.
  intros request.
  edestruct (@result_classifier_table Demo.external request Demo.empty_world)
    as (_ & _ & _ & _ & H30 & _).
  - vm_compute. reflexivity.
  - vm_compute. reflexivity.
  - vm_compute. reflexivity.
  - vm_compute. reflexivity.
  - vm_compute. reflexivity.
  - rewrite H30; [reflexivity|]. vm_compute. reflexivity.
Defined.

Section SignatureProperties.
Context `{External}.

(** C2. Whenever [handle_request] returns the record or raises one of the
    errors of the result codes, the form was valid and
    [is_signature_valid] had succeeded: with an unverified signature the
    classifier is never reached and no record is returned. *)
Theorem signature_verified_before_result_is_trusted request w :
  let form := Facade.get_return_form_populated_with_request request in
  trusts_result (fst (Facade.handle_request request w)) = true ->
  form_is_valid form = true /\ gateway_is_signature_valid form = true.
Proof.
  intros form.
  destruct (Facade.get_total_incl_tax form) as [amt|e] eqn:Hamt.
  - destruct (save_txn_notification_run (Facade.get_order_number form) amt request w)
      as (txn & Hsave & _).
    rewrite (handle_request_run request w amt txn _ Hamt Hsave). fold form.
    destruct (form_is_valid form); simpl; [|discriminate].
    destruct (gateway_is_signature_valid form); simpl; [done|discriminate].
  - rewrite (handle_request_amount_error request w e Hamt). simpl.
    destruct (get_total_incl_tax_errors form e Hamt) as [Hc|Hc];
      destruct e; simpl in Hc; try discriminate; done.
Qed.

(** With a signature that does not verify, the only outcomes are the error
    of the form and signature checks and the errors of reading the amount,
    whatever the result code says. *)
Lemma unverified_signature_outcomes request w :
  gateway_is_signature_valid (Facade.get_return_form_populated_with_request request) = false ->
  exists e, fst (Facade.handle_request request w) = Raise e
            /\ (class_name e = "SystemPayFormNotValid" \/ class_name e = "ValueError"
                \/ class_name e = "OverflowError").
Proof.
  intros Hsig.
  set (form := Facade.get_return_form_populated_with_request request) in *.
  destruct (Facade.get_total_incl_tax form) as [amt|e] eqn:Hamt.
  - destruct (save_txn_notification_run (Facade.get_order_number form) amt request w)
      as (txn & Hsave & _).
    rewrite (handle_request_run request w amt txn _ Hamt Hsave). fold form.
    rewrite Hsig. destruct (form_is_valid form); simpl; eexists; split; eauto.
  - rewrite (handle_request_amount_error request w e Hamt). simpl.
    exists e. split; [done|]. right. by apply (get_total_incl_tax_errors form).
Qed.

(** C6. At a validly signed callback whose record is not complete and has
    the result code 17, with no exception being handled (as in every caller
    of [handle_request]), the bare [raise] has nothing to raise again:
    [RuntimeError] is raised, and no underlying error is propagated. *)
Theorem result_17_raises_RuntimeError request w amt txn w1 :
  let form := Facade.get_return_form_populated_with_request request in
  Facade.get_total_incl_tax form = Ok amt ->
  Facade.save_txn_notification (Facade.get_order_number form) amt request w = (Ok txn, w1) ->
  form_is_valid form = true ->
  gateway_is_signature_valid form = true ->
  is_complete txn = false ->
  result txn = Some (PStr "17") ->
  exc_info w = None ->
  Facade.handle_request request w
  = (Raise (RuntimeError "No active exception to reraise"), w1).
Proof.
  intros form Hamt Hsave Hvalid Hsig Hcomplete Hcode Hexc.
  rewrite (handle_request_run request w amt txn w1 Hamt Hsave).
  fold form. rewrite Hvalid, Hsig, Hcomplete. simpl.
  unfold Facade.result_is. rewrite Hcode. simpl.
  destruct (save_txn_notification_run (Facade.get_order_number form) amt request w)
    as (txn' & Hsave' & _).
  rewrite Hsave in Hsave'. injection Hsave' as -> ->.
  unfold reraise. simpl. by rewrite Hexc.
Qed.

End SignatureProperties.

Lemma signature_verified_before_result_is_trusted_witness :
  let request := Demo.notification
                   [("vads_order_id", "ORD-100"); ("vads_amount", "2599");
                    ("vads_result", "00"); ("signature", "c0ffee")] in
  let form := Facade.get_return_form_populated_with_request request in
  trusts_result (fst (@Facade.handle_request Demo.external request Demo.empty_world)) = true
  /\ @form_is_valid Demo.external form = true
  /\ @gateway_is_signature_valid Demo.external form = true.
Proof.
  intros request form. split; [vm_compute; reflexivity|].
  apply (@signature_verified_before_result_is_trusted Demo.external request Demo.empty_world).
  vm_compute. reflexivity.
Defined.

Lemma result_17_raises_RuntimeError_witness :
  let request := Demo.notification
                   [("vads_order_id", "ORD-100"); ("vads_amount", "2599");
                    ("vads_result", "17"); ("signature", "c0ffee")] in
  fst (@Facade.handle_request Demo.external request Demo.empty_world)
  = Raise (RuntimeError "No active exception to reraise").
Proof.
  intros request.
  erewrite (@result_17_raises_RuntimeError Demo.external request Demo.empty_world);
    [reflexivity | vm_compute; reflexivity ..].
Defined.

(** ** The amount *)

(** C5. For the amount field 2599 the decimal that [get_total_incl_tax]
    computes is the exact value of the binary64 quotient 2599/100.0, which
    is 25.989999999999998436805981327779591083526611328125: it lies below
    25.99 and is not equal to it. *)
Theorem amount_2599_is_not_exactly_25_99 (form : Form) :
  data form !! "vads_amount" = Some (PStr "2599") ->
  exists d q,
    Facade.get_total_incl_tax form = Ok d
    /\ d = Dec false 25989999999999998436805981327779591083526611328125 (-48)
    /\ Decimal_value d = Some q
    /\ ~ (q == (2599 # 100))%Q
    /\ (q < (2599 # 100))%Q
    /\ ((2599 # 100) - q < (1 # 100000000000000))%Q.
Proof.
  intros Hamt. unfold Facade.get_total_incl_tax. rewrite Hamt.
  eexists _, _. split; [vm_compute; reflexivity|].
  split; [reflexivity|]. split; [reflexivity|].
  split; [|split].
  - intros Heq. vm_compute in Heq. discriminate.
  - vm_compute. reflexivity.
  - vm_compute. reflexivity.
Qed.

Lemma amount_2599_is_not_exactly_25_99_witness :
  exists d, Facade.get_total_incl_tax
              (Facade.get_return_form_populated_with_request
                 (Demo.notification [("vads_amount", "2599")])) = Ok d
            /\ d <> Dec false 2599 (-2).
Proof.
  destruct (amount_2599_is_not_exactly_25_99
              (Facade.get_return_form_populated_with_request
                 (Demo.notification [("vads_amount", "2599")])))
    as (d & q & Hd & Hval & _).
  - vm_compute. reflexivity.
  - exists d. split; [exact Hd|]. rewrite Hval. discriminate.
Defined.

(** ** Audit-first persistence *)

Section PersistenceProperties.
Context `{External}.

(** Once the amount is read, [handle_request] leaves exactly one new RETURN
    record in the table, whatever the checks say afterwards. *)
Lemma handle_request_persists request w amt :
  Facade.get_total_incl_tax (Facade.get_return_form_populated_with_request request) = Ok amt ->
  exists txn,
    txns (snd (Facade.handle_request request w)) = (txns w ++ [txn])%list
    /\ id txn = S (length (txns w))
    /\ mode txn = MODE_RETURN
    /\ amount txn = amt
    /\ order_number txn
       = Facade.get_order_number (Facade.get_return_form_populated_with_request request).
Proof.
  intros Hamt.
  set (form := Facade.get_return_form_populated_with_request request) in *.
  destruct (save_txn_notification_run (Facade.get_order_number form) amt request w)
    as (txn & Hsave & Hid & Hmode & Hamount & Hnumber & _).
  rewrite (handle_request_run request w amt txn _ Hamt Hsave). fold form.
  destruct (form_is_valid form); simpl.
  - destruct (gateway_is_signature_valid form); simpl.
    + exists txn. split; [|done].
      destruct (is_complete txn); simpl; [done|].
      repeat (match goal with |- context [Facade.result_is ?t ?c] =>
                destruct (Facade.result_is t c) end; [done|]).
      destruct (Facade.result_is txn "17"); [|done].
      unfold reraise. simpl. by destruct (exc_info w).
    + eexists. rewrite Hid, insert_last_row. split; [reflexivity|]. done.
  - eexists. rewrite Hid, insert_last_row. split; [reflexivity|]. done.
Qed.

(** C3. A payload whose amount field is not an integer literal makes
    [int()] raise before [save_txn_notification] is reached:
    [handle_request] fails with [ValueError] and the table is left as it
    was, without a record of the callback. *)
Theorem non_numeric_amount_leaves_no_record w :
  Facade.handle_request
    (Demo.notification [("vads_order_id", "ORD-100"); ("vads_amount", "abc")]) w
  = (Raise (ValueError "invalid literal for int() with base 10: 'abc'"), w).
Proof.
  apply handle_request_amount_error.
  unfold Facade.get_total_incl_tax, Facade.get_return_form_populated_with_request,
    gateway_get_return_form. simpl. rewrite to_dict_lookup. reflexivity.
Qed.

(** C10. A payload without the key [vads_amount] has the amount zero:
    [get_total_incl_tax] returns the decimal 0, and [handle_request] leaves a
    new RETURN record with the amount 0 in the table. *)
Theorem missing_amount_is_zero request w :
  let form := Facade.get_return_form_populated_with_request request in
  QueryDict.get "vads_amount" (POST request) = None ->
  Facade.get_total_incl_tax form = Ok D0
  /\ exists txn,
       txns (snd (Facade.handle_request request w)) = (txns w ++ [txn])%list
       /\ mode txn = MODE_RETURN
       /\ amount txn = D0.
Proof.
  intros form Hmissing.
  assert (Hzero : Facade.get_total_incl_tax form = Ok D0).
  { unfold Facade.get_total_incl_tax, form, Facade.get_return_form_populated_with_request,
      gateway_get_return_form. simpl. rewrite to_dict_lookup, Hmissing. reflexivity. }
  split; [exact Hzero|].
  destruct (handle_request_persists request w D0 Hzero) as (txn & Htable & _ & Hmode & Hamount & _).
  eauto.
Qed.

End PersistenceProperties.

Lemma missing_amount_is_zero_witness :
  let request := Demo.notification [("vads_order_id", "ORD-100"); ("vads_result", "00")] in
  exists txn,
    txns (snd (@Facade.handle_request Demo.external request Demo.empty_world)) = [txn]
    /\ mode txn = MODE_RETURN
    /\ amount txn = D0.
Proof.
  intros request.
  destruct (@missing_amount_is_zero Demo.external request Demo.empty_world) as (_ & Hrecord).
  - reflexivity.
  - exact Hrecord.
Defined.

(** ** The notification endpoint *)

Section NotificationProperties.
Context `{External}.

(** A returned record is the one that was just created from the payload. *)
Lemma handle_request_Ok request w txn w1 :
  Facade.handle_request request w = (Ok txn, w1) ->
  w1 = set_txns (txns w ++ [txn]) w
  /\ mode txn = MODE_RETURN
  /\ order_number txn = PStr <$> QueryDict.get "vads_order_id" (POST request)
  /\ gateway_is_signature_valid (Facade.get_return_form_populated_with_request request) = true.
Proof.
  set (form := Facade.get_return_form_populated_with_request request).
  destruct (Facade.get_total_incl_tax form) as [amt|e] eqn:Hamt.
  - destruct (save_txn_notification_run (Facade.get_order_number form) amt request w)
      as (txn0 & Hsave & _ & Hmode & _ & Hnumber & _).
    rewrite (handle_request_run request w amt txn0 _ Hamt Hsave). fold form.
    destruct (form_is_valid form); simpl; [|discriminate].
    destruct (gateway_is_signature_valid form); simpl; [|discriminate].
    destruct (is_complete txn0); simpl.
    + intros [= <- <-]. repeat split; try done.
      rewrite Hnumber. unfold Facade.get_order_number, form,
        Facade.get_return_form_populated_with_request, gateway_get_return_form.
      simpl. apply to_dict_lookup.
    + repeat (match goal with |- context [Facade.result_is ?t ?c] =>
                destruct (Facade.result_is t c) end; [discriminate|]).
      destruct (Facade.result_is txn0 "17"); [|discriminate].
      unfold reraise. destruct (exc_info _); discriminate.
  - rewrite (handle_request_amount_error request w e Hamt). discriminate.
Qed.

(** An error of the package that [handle_request] raises leaves
    [handle_ipn] unchanged, before anything is done for the payment. *)
Lemma handle_ipn_reraises request w e w1 :
  Facade.handle_request request w = (Raise e, w1) ->
  is_SystemPayError e = true ->
  HandleIPN.handle_ipn request w = (Raise e, w1).
Proof.
  intros Hrun He. unfold HandleIPN.handle_ipn, bind, try_except.
  rewrite Hrun, He. unfold reraise. simpl.
  by rewrite set_exc_info_restore.
Qed.

(** C4 (as the code has it). When the amount is read, the form is valid and
    the signature does not verify, [handle_request] attaches a non-empty
    error message to the RETURN record it has just persisted and raises
    [SystemPayFormNotValid], the error class that a malformed form raises
    too, with a message of its own; [handle_ipn] raises it again, and the
    endpoint adds no payment source and saves no payment details. *)
Theorem invalid_signature_is_recorded_and_rejected request w amt :
  let form := Facade.get_return_form_populated_with_request request in
  Facade.get_total_incl_tax form = Ok amt ->
  form_is_valid form = true ->
  gateway_is_signature_valid form = false ->
  exists txn msg,
    let e := SystemPayFormNotValid
               ("Incorrect signature. Check SystemPayTransaction #"
                ++ str_of_int (Z.of_nat (id txn)) ++ " for more details") in
    Facade.handle_request request w = (Raise e, set_txns (txns w ++ [txn]) w)
    /\ mode txn = MODE_RETURN
    /\ error_message txn = Some msg
    /\ msg <> EmptyString
    /\ HandleIPN.handle_ipn request w = (Raise e, set_txns (txns w ++ [txn]) w)
    /\ fst (HandleIPN.post request w) <> Ok HttpResponse
    /\ payment_sources (snd (HandleIPN.post request w)) = payment_sources w
    /\ payment_details (snd (HandleIPN.post request w)) = payment_details w.
Proof.
  intros form Hamt Hvalid Hsig.
  destruct (save_txn_notification_run (Facade.get_order_number form) amt request w)
    as (txn & Hsave & Hid & Hmode & _).
  pose proof (handle_request_run request w amt txn _ Hamt Hsave) as Hrun.
  fold form in Hrun. rewrite Hvalid, Hsig in Hrun. simpl in Hrun.
  assert (Hrow : forall txn', <[pred (id txn) := txn']> (txns w ++ [txn])%list
                              = (txns w ++ [txn'])%list).
  { intros txn'. rewrite Hid. apply insert_last_row. }
  rewrite Hrow in Hrun.
  eexists (set_error_message _ txn), _. cbv zeta.
  split; [exact Hrun|].
  split; [exact Hmode|]. split; [reflexivity|]. split; [discriminate|].
  pose proof (handle_ipn_reraises request w _ _ Hrun eq_refl) as Hipn.
  split; [exact Hipn|].
  unfold HandleIPN.post, bind, try_except. rewrite Hipn. simpl.
  destruct SystemPayError_is_PaymentError; simpl;
    [destruct (exn_message _); simpl|]; repeat split; discriminate.
Qed.

(** C8. When [handle_request] returns the record of a notification whose
    order reference is the number of no stored order, the endpoint logs that
    the order cannot be retrieved, adds no payment source, saves no payment
    details, and answers with the plain [HttpResponse]. *)
Theorem unknown_order_is_logged_and_acknowledged request w txn w1 :
  Facade.handle_request request w = (Ok txn, w1) ->
  (forall o, o ∈ orders w ->
             QueryDict.get "vads_order_id" (POST request) <> Some (number o)) ->
  HandleIPN.post request w
  = (Ok HttpResponse,
     set_logged (logged w ++ ["Unable to retrieve Order #" ++ py_str (order_number txn)]) w1)
  /\ payment_sources w1 = payment_sources w
  /\ payment_details w1 = payment_details w
  /\ source_types w1 = source_types w.
Proof.
  intros Hrun Hunknown.
  destruct (handle_request_Ok request w txn w1 Hrun) as (Hw1 & _ & Hnumber & _).
  assert (Hnone : filter (fun o => is_Some (order_number txn)
                                   /\ number o = py_str (order_number txn)) (orders w1) = []).
  { rewrite Hw1. simpl. apply filter_none.
    intros o Ho [Hsome Heq]. apply (Hunknown o Ho).
    rewrite Hnumber in Hsome, Heq.
    destruct (QueryDict.get "vads_order_id" (POST request)) as [s|]; simpl in *.
    - by rewrite Heq.
    - by destruct Hsome. }
  unfold HandleIPN.post, HandleIPN.handle_ipn, bind, try_except.
  rewrite Hrun. unfold HandleIPN.complete_payment, bind, Order_get_by_number,
    Order_objects_get. rewrite Hnone. simpl.
  rewrite Hw1. simpl. split; [reflexivity|done].
Qed.

End NotificationProperties.

(** C4 (as stated) fails: a callback with a tampered signature and a
    callback with a missing field are refused with the same error class. *)
Lemma signature_error_class_counterexample :
  let tampered := Demo.notification
                    [("vads_order_id", "ORD-100"); ("vads_amount", "2599");
                     ("vads_result", "00"); ("signature", "0badc0de")] in
  let malformed := Demo.notification
                     [("vads_order_id", "ORD-100"); ("vads_amount", "2599");
                      ("signature", "c0ffee")] in
  @form_is_valid Demo.external (Facade.get_return_form_populated_with_request tampered) = true
  /\ @gateway_is_signature_valid Demo.external
       (Facade.get_return_form_populated_with_request tampered) = false
  /\ @form_is_valid Demo.external (Facade.get_return_form_populated_with_request malformed) = false
  /\ exists e1 e2,
       fst (@Facade.handle_request Demo.external tampered Demo.empty_world) = Raise e1
       /\ fst (@Facade.handle_request Demo.external malformed Demo.empty_world) = Raise e2
       /\ class_name e1 = "SystemPayFormNotValid"
       /\ class_name e2 = "SystemPayFormNotValid".
Proof.
  intros tampered malformed.
  split; [vm_compute; reflexivity|]. split; [vm_compute; reflexivity|].
  split; [vm_compute; reflexivity|].
  eexists _, _. split; [vm_compute; reflexivity|]. split; [vm_compute; reflexivity|].
  split; reflexivity.
Qed.

Lemma invalid_signature_is_recorded_and_rejected_witness :
  let tampered := Demo.notification
                    [("vads_order_id", "ORD-100"); ("vads_amount", "2599");
                     ("vads_result", "00"); ("signature", "0badc0de")] in
  exists txn msg,
    txns (snd (@Facade.handle_request Demo.external tampered Demo.empty_world)) = [txn]
    /\ error_message txn = Some msg
    /\ msg <> EmptyString
    /\ payment_sources (snd (@HandleIPN.post Demo.external tampered Demo.empty_world)) = [].
Proof.
  intros tampered.
  destruct (@invalid_signature_is_recorded_and_rejected Demo.external tampered
              Demo.empty_world (Dec false 25989999999999998436805981327779591083526611328125 (-48)))
    as (txn & msg & Hrun & _ & Hmsg & Hne & _ & _ & Hsources & _).
  - vm_compute. reflexivity.
  - vm_compute. reflexivity.
  - vm_compute. reflexivity.
  - exists txn, msg. rewrite Hrun. simpl. repeat split; assumption.
Defined.

(** C8 (as stated) fails: the notification of a refused payment for an
    order that is not stored is answered with a bad-request response, and
    nothing is logged. *)
Lemma unknown_order_refused_payment_counterexample :
  let request := Demo.notification
                   [("vads_order_id", "ORD-404"); ("vads_amount", "2599");
                    ("vads_result", "05"); ("signature", "c0ffee")] in
  (forall o, o ∈ orders Demo.empty_world ->
             QueryDict.get "vads_order_id" (POST request) <> Some (number o))
  /\ fst (@HandleIPN.post Demo.external request Demo.empty_world)
     = Ok (HttpResponseBadRequest "The payment has been rejected")
  /\ logged (snd (@HandleIPN.post Demo.external request Demo.empty_world)) = [].
Proof.
  intros request. split.
  - intros o Ho. apply list_elem_of_singleton in Ho. subst o.
    vm_compute. discriminate.
  - split; vm_compute; reflexivity.
Qed.

Lemma unknown_order_is_logged_and_acknowledged_witness :
  let request := Demo.notification
                   [("vads_order_id", "ORD-404"); ("vads_amount", "2599");
                    ("vads_result", "00"); ("vads_operation_type", "DEBIT");
                    ("signature", "c0ffee")] in
  fst (@HandleIPN.post Demo.external request Demo.empty_world) = Ok HttpResponse
  /\ logged (snd (@HandleIPN.post Demo.external request Demo.empty_world))
     = ["Unable to retrieve Order #ORD-404"]
  /\ payment_sources (snd (@HandleIPN.post Demo.external request Demo.empty_world)) = [].
Proof.
  intros request.
  edestruct (@unknown_order_is_logged_and_acknowledged Demo.external request Demo.empty_world)
    as (Hpost & _).
  - vm_compute. reflexivity.
  - intros o Ho. apply list_elem_of_singleton in Ho. subst o.
    vm_compute. discriminate.
  - rewrite Hpost. repeat split; vm_compute; reflexivity.
Defined.

(** ** Looking up orders *)

Lemma Order_objects_get_spec (P : Order -> Prop) `{forall o, Decision (P o)} w :
  match Order_objects_get P w with
  | (Ok o, w') => o ∈ orders w /\ P o /\ w' = w
  | (Raise _, w') => w' = w
  end.
Proof.
  unfold Order_objects_get.
  destruct (filter P (orders w)) as [|o [|o' l]] eqn:Hf; try done.
  assert (Ho : o ∈ filter P (orders w)) by (rewrite Hf; left).
  apply list_elem_of_filter in Ho as [? ?]. done.
Qed.

Lemma Order_get_by_id_spec v w :
  match Order_get_by_id v w with
  | (Ok o, w') => o ∈ orders w /\ w' = w
  | (Raise _, w') => w' = w
  end.
Proof.
  unfold Order_get_by_id, bind, lift.
  destruct (py_int v) as [z|e]; [|done].
  pose proof (Order_objects_get_spec (fun o => order_id o = z) w) as Hget.
  destruct (Order_objects_get _ w) as [[o|e] w']; [|done]. tauto.
Qed.

Lemma Order_get_by_number_spec v w :
  match Order_get_by_number v w with
  | (Ok o, w') => o ∈ orders w /\ w' = w
  | (Raise _, w') => w' = w
  end.
Proof.
  unfold Order_get_by_number.
  pose proof (Order_objects_get_spec
                (fun o => is_Some v /\ number o = py_str v) w) as Hget.
  destruct (Order_objects_get _ w) as [[o|e] w']; [|done]. tauto.
Qed.

Lemma superuser_order_spec request w :
  match superuser_order request w with
  | (Ok (Some o), w') => o ∈ orders w /\ w' = w
  | (Ok None, w') => w' = w
  | (Raise _, w') => w' = w
  end.
Proof.
  unfold superuser_order.
  destruct (user_is_superuser request); [|done].
  destruct (QueryDict.contains "order_number" (GET request)).
  - unfold bind, getitem.
    destruct (QueryDict.get "order_number" (GET request)) as [v|]; [|done]. simpl.
    pose proof (Order_get_by_number_spec (Some (PStr v)) w) as Hget.
    destruct (Order_get_by_number _ w) as [[o|e] w']; done.
  - destruct (QueryDict.contains "order_id" (GET request)); [|done].
    unfold bind, getitem.
    destruct (QueryDict.get "order_id" (GET request)) as [v|]; [|done]. simpl.
    pose proof (Order_get_by_id_spec (PStr v) w) as Hget.
    destruct (Order_get_by_id _ w) as [[o|e] w']; done.
Qed.

(** ** The secure-redirect page *)

Section SecureRedirectProperties.
Context `{External}.

(** On a new view instance [get_object] finds a stored order and keeps it,
    or fails and changes nothing. *)
Lemma get_object_fresh request w :
  view_order w = None ->
  match SecureRedirectView.get_object request w with
  | (Ok o, w') => o ∈ orders w /\ w' = set_view_order (Some o) w
  | (Raise _, w') => w' = w
  end.
Proof.
  intros Hfresh. unfold SecureRedirectView.get_object, bind at 1, gets.
  rewrite Hfresh. unfold bind at 1.
  pose proof (superuser_order_spec request w) as Hsu.
  destruct (superuser_order request w) as [[[o|]|e] w']; try done.
  - destruct Hsu as [Ho ->]. unfold bind, ret, modify. done.
  - subst w'. unfold bind at 1. unfold bind at 1, gets.
    destruct (session w !! "checkout_order_id") as [v|]; [|done].
    pose proof (Order_get_by_id_spec v w) as Hget.
    destruct (Order_get_by_id v w) as [[o|e] w']; [|done].
    destruct Hget as [Ho ->]. unfold bind, ret, modify. done.
Qed.

(** C7 (as the code has it). Every rendering of the secure-redirect page
    that finds its order appends exactly one SUBMIT record for that order,
    whether or not the order already has one; a rendering that fails leaves
    the table as it was. *)
Theorem secure_redirect_appends_one_submit_record request w :
  match SecureRedirectView.as_view request w with
  | (Ok _, w') =>
      exists order txn,
        order ∈ orders w
        /\ txns w' = (txns w ++ [txn])%list
        /\ mode txn = MODE_SUBMIT
        /\ order_number txn = Some (PStr (number order))
        /\ length (submit_records (number order) (txns w'))
           = S (length (submit_records (number order) (txns w)))
  | (Raise _, w') => txns w' = txns w
  end.
Proof.
  unfold SecureRedirectView.as_view, SecureRedirectView.get.
  set (w0 := set_view_form None (set_view_order None w)).
  unfold bind at 1.
  pose proof (get_object_fresh request w0 eq_refl) as Hobj.
  destruct (SecureRedirectView.get_object request w0) as [[order|e] w1]; [|by subst w1].
  destruct Hobj as [Horder ->].
  unfold SecureRedirectView.super_get, SecureRedirectView.get_form,
    SecureRedirectView.get_object, Facade.save_submit_txn, Facade.save_txn,
    objects_create, bind, gets, modify, ret. simpl.
  eexists order, _. split; [exact Horder|]. split; [reflexivity|].
  split; [reflexivity|]. split; [reflexivity|].
  unfold submit_records. rewrite filter_app, length_app.
  rewrite filter_cons_True by done. simpl. lia.
Qed.

End SecureRedirectProperties.

(** C7 (as stated) fails: the page rendered twice for the same order leaves
    two SUBMIT records for it.  A superuser names the order in the query
    string both times; a customer renders the page, comes back from the bank
    through the return view, which puts the order into the session again,
    and renders the page once more. *)
Lemma second_submit_record_counterexample :
  let forced := {| POST := []; GET := [("order_number", "ORD-100")];
                   user_is_superuser := true |} in
  let page := {| POST := []; GET := []; user_is_superuser := false |} in
  let back := {| POST := [("vads_order_id", "ORD-100")]; GET := [];
                 user_is_superuser := false |} in
  let checkout := set_session {["checkout_order_id" := PInt 7]} Demo.empty_world in
  let w1 := snd (@SecureRedirectView.as_view Demo.external forced Demo.empty_world) in
  let w2 := snd (@SecureRedirectView.as_view Demo.external forced w1) in
  let c1 := snd (@SecureRedirectView.as_view Demo.external page checkout) in
  let c2 := snd (@ReturnResponseView.get_redirect_url Demo.external back c1) in
  let c3 := snd (@SecureRedirectView.as_view Demo.external page c2) in
  length (submit_records "ORD-100" (txns w2)) = 2%nat
  /\ length (submit_records "ORD-100" (txns c3)) = 2%nat.
Proof. split; vm_compute; reflexivity. Qed.

(** ** The return view *)

(** [get_order] reads the tables and changes nothing. *)
Lemma get_order_spec request w :
  match ResponseView.get_order request w with
  | (Ok o, w') => o ∈ orders w /\ w' = w
  | (Raise _, w') => w' = w
  end.
Proof.
  unfold ResponseView.get_order, bind at 1.
  pose proof (superuser_order_spec request w) as Hsu.
  destruct (superuser_order request w) as [[[o|]|e] w']; try done.
  subst w'.
  destruct (if QueryDict.contains "vads_order_id" (POST request)
            then QueryDict.get "vads_order_id" (POST request)
            else if QueryDict.contains "vads_order_id" (GET request)
                 then QueryDict.get "vads_order_id" (GET request)
                 else None) as [[|a s]|]; try done.
  unfold try_except.
  pose proof (Order_get_by_number_spec (Some (PStr (String a s))) w) as Hget.
  destruct (Order_get_by_number _ w) as [[o|e] w']; [done|]. subst w'.
  case_bool_decide; [|done]. unfold raise. by rewrite set_exc_info_restore.
Qed.

(** No record, no latest record. *)
Lemma latest_return_nil (order : Order) (table : list SystemPayTransaction) :
  (forall txn, txn ∈ table -> mode txn = MODE_RETURN ->
               order_number txn <> Some (PStr (number order))) ->
  ReturnResponseView.latest_return order table = [].
Proof.
  intros Hnone. unfold ReturnResponseView.latest_return.
  rewrite filter_none; [done|]. intros txn Htxn [Hmode Hnumber].
  by apply (Hnone txn).
Qed.

Section ReturnViewProperties.
Context `{External}.

(** C9. When the order of a browser return has no RETURN record yet, the
    return view adds one message, the fixed text that no response has been
    received from the bank, puts the order into the session and redirects to
    the thank-you page; the text holds nothing of a record, of an error or of
    a signature. *)
Theorem return_view_pending_message request w order w0 :
  ResponseView.get_order request w = (Ok order, w0) ->
  (forall txn, txn ∈ txns w -> mode txn = MODE_RETURN ->
               order_number txn <> Some (PStr (number order))) ->
  ReturnResponseView.get_redirect_url request w
  = (Ok (reverse "checkout:thank-you"),
     set_session (<["checkout_order_id" := PInt (order_id order)]> (session w))
       (set_messages
          (messages w
           ++ [(ERROR,
                "No response received from your bank for the moment. Be patient, we'll get back to you as soon as we receive it.")])
          w)).
Proof.
  intros Horder Hnone.
  pose proof (get_order_spec request w) as Hspec. rewrite Horder in Hspec.
  destruct Hspec as [_ ->].
  unfold ReturnResponseView.get_redirect_url, bind at 1. rewrite Horder.
  unfold bind at 1, gets. rewrite (latest_return_nil order (txns w) Hnone).
  reflexivity.
Qed.

End ReturnViewProperties.

Lemma return_view_pending_message_witness :
  let back := {| POST := [("vads_order_id", "ORD-100")]; GET := [];
                 user_is_superuser := false |} in
  messages (snd (@ReturnResponseView.get_redirect_url Demo.external back Demo.empty_world))
  = [(ERROR, ReturnResponseView.pending_message)].
Proof.
  intros back.
  erewrite (@return_view_pending_message Demo.external back Demo.empty_world).
  - reflexivity.
  - vm_compute. reflexivity.
  - intros txn Htxn. by apply not_elem_of_nil in Htxn.
Defined.

(** A callback that [handle_request] refuses with one of the package's
    errors is never acknowledged with the plain response, and the endpoint
    logs nothing for it. *)
Lemma refused_callback_is_not_acknowledged `{External} request w e w1 :
  Facade.handle_request request w = (Raise e, w1) ->
  is_SystemPayError e = true ->
  fst (HandleIPN.post request w) <> Ok HttpResponse
  /\ logged (snd (HandleIPN.post request w)) = logged w1.
Proof.
  intros Hrun He.
  pose proof (handle_ipn_reraises request w e w1 Hrun He) as Hipn.
  unfold HandleIPN.post, bind, try_except. rewrite Hipn.
  destruct (is_PaymentError e); simpl; [destruct (exn_message e); simpl|];
    split; (discriminate || reflexivity).
Qed.

(** * Further properties of the facade and the views *)

(** ** The amount *)

Lemma quarters_exact_spec count n0 k :
  quarters_exact count n0 = true ->
  0 <= k < Z.of_nat count ->
  amount_exact (n0 + 25 * k) = true.
Proof.
  revert n0 k. induction count as [|count IH]; intros n0 k Hall Hk; [lia|].
  simpl in Hall. apply andb_prop in Hall as [Hhere Hrest].
  destruct (decide (k = 0)) as [->|Hne].
  - by rewrite Z.mul_0_r, Z.add_0_r.
  - replace (n0 + 25 * k) with ((n0 + 25) + 25 * (k - 1)) by lia.
    apply IH; [exact Hrest|lia].
Qed.

Lemma quarters_up_to_50000_exact : quarters_exact 2001 0 = true.
Proof. vm_compute. reflexivity. Qed.

Lemma get_total_incl_tax_of_int form v n :
  data form !! "vads_amount" = Some v ->
  py_int v = Ok n ->
  Facade.get_total_incl_tax form = total_of_int n.
Proof.
  intros Hv Hn. unfold Facade.get_total_incl_tax, total_of_int.
  rewrite Hv. simpl. by rewrite Hn.
Qed.

Lemma divide_25_pow2 (k : nat) n : (25 | n * 2 ^ Z.of_nat k) -> (25 | n).
Proof.
  induction k as [|k IH].
  - simpl. by rewrite Z.mul_1_r.
  - rewrite Nat2Z.inj_succ, Z.pow_succ_r by lia.
    intros [y Hy]. apply IH. exists (y / 2).
    replace (n * (2 * 2 ^ Z.of_nat k)) with (2 * (n * 2 ^ Z.of_nat k)) in Hy by ring.
    clear IH. set (x := n * 2 ^ Z.of_nat k) in *. clearbody x.
    pose proof (Z.div_mod y 2 ltac:(lia)) as Hdiv.
    pose proof (Z.mod_pos_bound y 2 ltac:(lia)) as Hmod. lia.
Qed.

(** A decimal made from a float is a fraction with a power of two as its
    denominator: it is [n/100] only for [n] that 25 divides. *)
Lemma Decimal_from_float_hundredths f q n :
  Decimal_value (Decimal_from_float f) = Some q ->
  (q == n # 100)%Q ->
  (25 | n).
Proof.
  destruct f as [s|s| |s m e]; simpl; try discriminate.
  - intros [= <-] Heq. unfold Qeq in Heq. simpl in Heq.
    exists 0. destruct s; simpl in Heq; lia.
  - destruct (as_integer_ratio m e) as [c k] eqn:Hratio.
    intros Hq Heq.
    assert (Hscaled : exists c' : Z, c' * Z.of_N (5 ^ N.of_nat k) * 100
                                      = n * (2 ^ Z.of_nat k * 5 ^ Z.of_nat k)).
    { unfold Decimal_value in Hq.
      exists (if s then - Z.of_N c else Z.of_N c).
      rewrite <- Z.pow_mul_l. change (2 * 5) with 10.
      destruct k as [|k].
      - simpl in Hq. injection Hq as <-. unfold Qeq in Heq. simpl in Heq.
        simpl. destruct s; lia.
      - assert (Hexp : - Z.of_nat (S k) = Z.neg (Pos.of_succ_nat k)) by lia.
        rewrite Hexp in Hq. injection Hq as <-. unfold Qeq in Heq. simpl in Heq.
        rewrite Pos2Z.inj_pow in Heq.
        replace (Z.of_nat (S k)) with (Z.pos (Pos.of_succ_nat k)) by lia.
        rewrite <- Heq. rewrite N2Z.inj_mul. destruct s; lia. }
    destruct Hscaled as (c' & Hscaled).
    rewrite N2Z.inj_pow, nat_N_Z in Hscaled. change (Z.of_N 5) with 5 in Hscaled.
    assert (Hpos : 5 ^ Z.of_nat k <> 0) by (apply Z.pow_nonzero; lia).
    assert (Hcancel : c' * 100 = n * 2 ^ Z.of_nat k).
    { apply (Z.mul_reg_r _ _ (5 ^ Z.of_nat k) Hpos). lia. }
    apply (divide_25_pow2 k). exists (c' * 4). lia.
Qed.

(** X1. The amount that [get_total_incl_tax] computes for [n] minor units is
    never exactly [n/100] when 25 does not divide [n]: the decimal holds a
    binary fraction. *)
Theorem amount_inexact_unless_multiple_of_25 form v n d q :
  data form !! "vads_amount" = Some v ->
  py_int v = Ok n ->
  n mod 25 <> 0 ->
  Facade.get_total_incl_tax form = Ok d ->
  Decimal_value d = Some q ->
  ~ (q == n # 100)%Q.
Proof.
  intros Hv Hn Hmod Hd Hq Heq.
  rewrite (get_total_incl_tax_of_int form v n Hv Hn) in Hd.
  unfold total_of_int, Result_bind in Hd.
  destruct (float_of_int n) as [x|e]; [|discriminate].
  injection Hd as <-.
  apply Hmod, Z.mod_divide; [lia|].
  by apply (Decimal_from_float_hundredths (SFdiv prec emax x float_100) q n).
Qed.

Lemma amount_inexact_unless_multiple_of_25_witness :
  exists d q,
    Facade.get_total_incl_tax {| data := {[ "vads_amount" := PStr "1999" ]} |} = Ok d
    /\ Decimal_value d = Some q
    /\ ~ (q == 1999 # 100)%Q.
Proof.
  eexists _, _. split; [vm_compute; reflexivity|]. split; [reflexivity|].
  eapply (amount_inexact_unless_multiple_of_25
            {| data := {[ "vads_amount" := PStr "1999" ]} |} (PStr "1999") 1999);
    [reflexivity | reflexivity | discriminate | vm_compute; reflexivity | reflexivity].
Defined.

(** X2. For every multiple of 25 minor units up to 50000 the amount that
    [get_total_incl_tax] computes is exactly the hundredth part. *)
Theorem amount_exact_on_quarters form v k :
  data form !! "vads_amount" = Some v ->
  py_int v = Ok (25 * k) ->
  0 <= k <= 2000 ->
  exists d q,
    Facade.get_total_incl_tax form = Ok d
    /\ Decimal_value d = Some q
    /\ (q == 25 * k # 100)%Q.
Proof.
  intros Hv Hn Hk.
  rewrite (get_total_incl_tax_of_int form v (25 * k) Hv Hn).
  assert (Hexact : amount_exact (0 + 25 * k) = true).
  { apply (quarters_exact_spec 2001); [exact quarters_up_to_50000_exact|].
    change (Z.of_nat 2001) with 2001. lia. }
  rewrite Z.add_0_l in Hexact. unfold amount_exact in Hexact.
  destruct (total_of_int (25 * k)) as [d|e]; [|discriminate].
  destruct (Decimal_value d) as [q|] eqn:Hq; [|discriminate].
  exists d, q. split; [reflexivity|]. split; [exact Hq|]. by apply Qeq_bool_iff.
Qed.

Lemma amount_exact_on_quarters_witness :
  exists d q,
    Facade.get_total_incl_tax {| data := {[ "vads_amount" := PStr "2575" ]} |} = Ok d
    /\ Decimal_value d = Some q
    /\ (q == 2575 # 100)%Q.
Proof.
  apply (amount_exact_on_quarters
           {| data := {[ "vads_amount" := PStr "2575" ]} |} (PStr "2575") 103);
    [reflexivity | reflexivity | lia].
Defined.

(** ** What [handle_request] records *)

Lemma update_empty (d : dict) : update ∅ d = d.
Proof. unfold update. apply (right_id ∅ (∪)). Qed.

Lemma QueryDict_get_last k v (q1 q2 : QueryDict.t) :
  k ∉ q2.*1 ->
  QueryDict.get k (q1 ++ (k, v) :: q2)%list = Some v.
Proof.
  intros Hlater.
  assert (Hq2 : QueryDict.get k q2 = None).
  { destruct (QueryDict.get k q2) eqn:E; [|done].
    exfalso. apply Hlater, QueryDict_get_Some_key. rewrite E. eauto. }
  induction q1 as [|[k' v'] q1 IH]; simpl.
  - by rewrite Hq2, String.eqb_refl.
  - by rewrite IH.
Qed.

Lemma QueryDict_get_None k (q : QueryDict.t) :
  k ∉ q.*1 -> QueryDict.get k q = None.
Proof.
  intros Hk. destruct (QueryDict.get k q) eqn:E; [|done].
  exfalso. apply Hk, QueryDict_get_Some_key. rewrite E. eauto.
Qed.

Section RecordProperties.
Context `{External}.

Lemma save_txn_notification_fields order_no amt request w :
  exists txn,
    Facade.save_txn_notification order_no amt request w
      = (Ok txn, set_txns (txns w ++ [txn]) w)
    /\ txn = {| id := S (length (txns w)); mode := MODE_RETURN;
                operation_type := PStr <$> QueryDict.get "vads_operation_type" (POST request);
                trans_id := PStr <$> QueryDict.get "vads_trans_id" (POST request);
                trans_date := PStr <$> QueryDict.get "vads_trans_date" (POST request);
                order_number := order_no; amount := amt;
                auth_result := PStr <$> QueryDict.get "vads_auth_result" (POST request);
                result := PStr <$> QueryDict.get "vads_result" (POST request);
                raw_request := urlencode (QueryDict.to_dict (POST request));
                error_message := None; date_created := now w |}.
Proof.
  eexists. unfold Facade.save_txn_notification, Facade.save_txn, objects_create.
  split; [reflexivity|]. by rewrite !to_dict_lookup.
Qed.

(** X3. Once the amount is read, [handle_request] appends exactly one RETURN
    record whose fields are the last values sent for the payload's keys,
    whose raw request is the encoded payload, and whose error message tells
    which check failed: the form errors, else the signature mismatch, else
    none, whatever the result code is. *)
Theorem persisted_record_holds_the_payload request w amt :
  let form := Facade.get_return_form_populated_with_request request in
  Facade.get_total_incl_tax form = Ok amt ->
  txns (snd (Facade.handle_request request w))
  = (txns w ++
     [{| id := S (length (txns w)); mode := MODE_RETURN;
         operation_type := PStr <$> QueryDict.get "vads_operation_type" (POST request);
         trans_id := PStr <$> QueryDict.get "vads_trans_id" (POST request);
         trans_date := PStr <$> QueryDict.get "vads_trans_date" (POST request);
         order_number := PStr <$> QueryDict.get "vads_order_id" (POST request);
         amount := amt;
         auth_result := PStr <$> QueryDict.get "vads_auth_result" (POST request);
         result := PStr <$> QueryDict.get "vads_result" (POST request);
         raw_request := urlencode (QueryDict.to_dict (POST request));
         error_message :=
           if negb (form_is_valid form) then Some (printable_form_errors form)
           else if negb (gateway_is_signature_valid form) then
             Some ("Signature not valid. Get '" ++ cleaned_data_signature form
                   ++ "' instead of '" ++ gateway_compute_signature form ++ "'")%string
           else None;
         date_created := now w |}])%list.
Proof.
  intros form Hamt.
  destruct (save_txn_notification_fields (Facade.get_order_number form) amt request w)
    as (txn & Hsave & Htxn).
  rewrite (handle_request_run request w amt txn _ Hamt Hsave). fold form.
  assert (Hnumber : Facade.get_order_number form
                    = PStr <$> QueryDict.get "vads_order_id" (POST request)).
  { unfold Facade.get_order_number, form, Facade.get_return_form_populated_with_request,
      gateway_get_return_form. simpl. apply to_dict_lookup. }
  rewrite Hnumber in Htxn.
  assert (Hrow : forall txn', <[pred (id txn) := txn']> (txns w ++ [txn])%list
                              = (txns w ++ [txn'])%list).
  { intros txn'. rewrite Htxn. apply insert_last_row. }
  destruct (form_is_valid form); simpl.
  - destruct (gateway_is_signature_valid form); simpl.
    + assert (Hrest : forall r : Result SystemPayTransaction * World,
                 r.2 = set_txns (txns w ++ [txn]) w ->
                 txns r.2 = (txns w ++ [txn])%list) by (by intros r ->).
      rewrite <- Htxn. apply Hrest.
      destruct (is_complete txn); simpl; [done|].
      repeat (match goal with |- context [Facade.result_is ?t ?c] =>
                destruct (Facade.result_is t c) end; [done|]).
      destruct (Facade.result_is txn "17"); [|done].
      unfold reraise. simpl. by destruct (exc_info w).
    + rewrite Hrow. by rewrite Htxn.
  - rewrite Hrow. by rewrite Htxn.
Qed.

(** X4. An invalid form is refused before the signature is looked at: the
    error names the form errors and the primary key of the record, whatever
    the signature and the result code are. *)
Theorem invalid_form_is_refused_first request w amt :
  let form := Facade.get_return_form_populated_with_request request in
  Facade.get_total_incl_tax form = Ok amt ->
  form_is_valid form = false ->
  fst (Facade.handle_request request w)
  = Raise (SystemPayFormNotValid
             ("The data received are not complete: " ++ printable_form_errors form
              ++ ". See the transaction record #"
              ++ str_of_int (Z.of_nat (S (length (txns w)))) ++ " for more details")).
Proof.
  intros form Hamt Hvalid.
  destruct (save_txn_notification_fields (Facade.get_order_number form) amt request w)
    as (txn & Hsave & Htxn).
  rewrite (handle_request_run request w amt txn _ Hamt Hsave). fold form.
  rewrite Hvalid. simpl. by rewrite Htxn.
Qed.

(** X5. [handle_request] touches nothing but the transaction table, where it
    appends at most one record and leaves the earlier records as they
    were. *)
Theorem handle_request_only_appends request w :
  let w' := snd (Facade.handle_request request w) in
  (exists rows, txns w' = (txns w ++ rows)%list /\ (length rows <= 1)%nat)
  /\ orders w' = orders w
  /\ source_types w' = source_types w
  /\ session w' = session w
  /\ messages w' = messages w
  /\ payment_sources w' = payment_sources w
  /\ payment_details w' = payment_details w
  /\ logged w' = logged w
  /\ exc_info w' = exc_info w.
Proof.
  set (form := Facade.get_return_form_populated_with_request request).
  destruct (Facade.get_total_incl_tax form) as [amt|e] eqn:Hamt.
  - destruct (save_txn_notification_fields (Facade.get_order_number form) amt request w)
      as (txn & Hsave & Htxn).
    destruct (handle_request_persists request w amt Hamt) as (row & Hrows & _).
    cbv zeta. split; [exists [row]; split; [exact Hrows|simpl; lia]|].
    rewrite (handle_request_run request w amt txn _ Hamt Hsave). fold form.
    destruct (form_is_valid form); simpl; [|done].
    destruct (gateway_is_signature_valid form); simpl; [|done].
    destruct (is_complete txn); simpl; [done|].
    repeat (match goal with |- context [Facade.result_is ?t ?c] =>
              destruct (Facade.result_is t c) end; [done|]).
    destruct (Facade.result_is txn "17"); [|done].
    unfold reraise. simpl. destruct (exc_info w) eqn:Hexc; simpl; by rewrite ?Hexc.
  - cbv zeta. rewrite (handle_request_amount_error request w e Hamt). simpl.
    split; [exists []; split; [by rewrite app_nil_r|simpl; lia]|done].
Qed.

(** X6. [handle_request] returns the record exactly when the amount is read,
    the form is valid, the signature verifies and the new record is
    complete. *)
Theorem handle_request_accepts_iff request w :
  let form := Facade.get_return_form_populated_with_request request in
  is_Ok (fst (Facade.handle_request request w)) = true
  <-> exists amt txn w1,
        Facade.get_total_incl_tax form = Ok amt
        /\ Facade.save_txn_notification (Facade.get_order_number form) amt request w
           = (Ok txn, w1)
        /\ form_is_valid form = true
        /\ gateway_is_signature_valid form = true
        /\ is_complete txn = true.
Proof.
  intros form. split.
  - destruct (Facade.get_total_incl_tax form) as [amt|e] eqn:Hamt.
    + destruct (save_txn_notification_fields (Facade.get_order_number form) amt request w)
        as (txn & Hsave & _).
      rewrite (handle_request_run request w amt txn _ Hamt Hsave). fold form.
      destruct (form_is_valid form) eqn:Hvalid; simpl; [|discriminate].
      destruct (gateway_is_signature_valid form) eqn:Hsig; simpl; [|discriminate].
      destruct (is_complete txn) eqn:Hcomplete; simpl.
      * intros _. by exists amt, txn, (set_txns (txns w ++ [txn]) w).
      * repeat (match goal with |- context [Facade.result_is ?t ?c] =>
                  destruct (Facade.result_is t c) end; [discriminate|]).
        destruct (Facade.result_is txn "17"); [|discriminate].
        unfold reraise. by destruct (exc_info _).
    + rewrite (handle_request_amount_error request w e Hamt). discriminate.
  - intros (amt & txn & w1 & Hamt & Hsave & Hvalid & Hsig & Hcomplete).
    rewrite (handle_request_run request w amt txn w1 Hamt Hsave). fold form.
    by rewrite Hvalid, Hsig, Hcomplete.
Qed.

(** [save_txn] writes the same record for a QueryDict and for the
    dictionary of its last values: both branches of the type test agree. *)
Lemma save_txn_QueryDict_as_dict order_no amt (q : QueryDict.t) mode w :
  Facade.save_txn order_no amt (inl q) mode w
  = Facade.save_txn order_no amt (inr (QueryDict.to_dict q)) mode w.
Proof. unfold Facade.save_txn. by rewrite update_empty. Qed.

End RecordProperties.

(** X7. The return form holds, for every key of the POST data, the last
    value sent for it, and nothing for a key that was not sent; the query
    string does not enter. *)
Theorem return_form_last_value_wins request k :
  let form := Facade.get_return_form_populated_with_request request in
  (forall v q1 q2, POST request = (q1 ++ (k, v) :: q2)%list -> k ∉ q2.*1 ->
                   data form !! k = Some (PStr v))
  /\ (k ∉ (POST request).*1 -> data form !! k = None).
Proof.
  intros form. unfold form, Facade.get_return_form_populated_with_request,
    gateway_get_return_form. simpl. split.
  - intros v q1 q2 Hpost Hlater.
    by rewrite to_dict_lookup, Hpost, QueryDict_get_last.
  - intros Hk. by rewrite to_dict_lookup, QueryDict_get_None.
Qed.

(** ** The parameters of the submit form *)

Lemma update_empty_r (d : dict) : update d ∅ = d.
Proof. unfold update. apply (left_id ∅ (∪)). Qed.

Section SubmitFormProperties.
Context `{External}.

(** X8. The submit form is made by the gateway from the order's total and
    the parameters of the order, in which every keyword argument of the
    caller replaces the parameter of the same name and leaves the others as
    they are. *)
Theorem submit_form_overrides_win order kwargs :
  Facade.get_submit_form_populated_with_order order kwargs
  = gateway_sign (gateway_get_submit_form (total_incl_tax order) (submit_params order kwargs))
  /\ (forall k v, kwargs !! k = Some v -> submit_params order kwargs !! k = Some v)
  /\ (forall k, kwargs !! k = None ->
                submit_params order kwargs !! k = submit_params order ∅ !! k).
Proof.
  split; [reflexivity|]. unfold submit_params, update. split.
  - intros k v Hk. by apply lookup_union_Some_l.
  - intros k Hk. rewrite lookup_union_r by done.
    by rewrite (left_id ∅ (∪)).
Qed.

(** X9. The keys of the parameters are the order number, three keys of the
    customer when the order has a user, six keys when it has a billing
    address, seven when it has a shipping address, and the keys of the
    keyword arguments; nothing else. *)
Theorem submit_params_keys order kwargs :
  dom (submit_params order kwargs)
  = dom kwargs ∪ {[ "vads_order_id" ]} ∪ keys_if (user order) user_keys
    ∪ keys_if (billing_address order) billing_keys
    ∪ keys_if (shipping_address order) shipping_keys.
Proof.
  unfold submit_params, update, Facade.user_params, Facade.billing_params,
    Facade.shipping_params, keys_if, user_keys, billing_keys, shipping_keys.
  destruct (user order), (billing_address order), (shipping_address order);
    rewrite dom_union_L, ?dom_insert_L, dom_empty_L; set_solver.
Qed.

(** X10. Without keyword arguments the order number is always among the
    parameters, and every parameter is a string, never [None], except the
    customer's id, which is the user's primary key: a missing address field
    is sent as the empty string. *)
Theorem submit_params_are_strings order :
  submit_params order ∅ !! "vads_order_id" = Some (PStr (number order))
  /\ (forall k v, submit_params order ∅ !! k = Some v ->
                  (exists s, v = PStr s)
                  \/ (k = "vads_cust_id" /\ exists u, user order = Some u /\ v = PInt (pk u)))
  /\ (forall a, billing_address order = Some a -> city a = None ->
                submit_params order ∅ !! "vads_cust_city" = Some (PStr EmptyString)).
Proof.
  unfold submit_params. rewrite update_empty_r.
  unfold Facade.user_params, Facade.billing_params, Facade.shipping_params.
  split; [|split].
  - destruct (user order), (billing_address order), (shipping_address order);
      by simplify_map_eq.
  - intros k v Hk.
    destruct (user order) as [u|], (billing_address order), (shipping_address order);
      repeat (apply lookup_insert_Some in Hk as [[<- <-]|[? Hk]];
              [solve [left; eauto | right; eauto]|]);
      by rewrite lookup_empty in Hk.
  - intros a -> Hcity. rewrite Hcity.
    destruct (user order), (shipping_address order); by simplify_map_eq.
Qed.

End SubmitFormProperties.

(** ** The secure-redirect page, continued *)

Lemma bind_ext {A B} (m m' : M A) (k k' : A -> M B) w :
  m w = m' w ->
  (forall a w1, k a w1 = k' a w1) ->
  bind m k w = bind m' k' w.
Proof.
  intros Hm Hk. unfold bind. rewrite Hm.
  destruct (m' w) as [[a|e] w1]; [apply Hk|done].
Qed.

Lemma superuser_order_customer request w :
  user_is_superuser request = false ->
  superuser_order request w = (Ok None, w).
Proof. intros Hcustomer. unfold superuser_order. by rewrite Hcustomer. Qed.

Section SecureRedirectMore.
Context `{External}.

Lemma get_object_customer request request' w :
  user_is_superuser request = false ->
  user_is_superuser request' = false ->
  SecureRedirectView.get_object request w = SecureRedirectView.get_object request' w.
Proof.
  intros Hc Hc'. unfold SecureRedirectView.get_object.
  apply bind_ext; [done|]. intros [order|] w1; [done|].
  apply bind_ext; [|done].
  by rewrite (superuser_order_customer request), (superuser_order_customer request').
Qed.

Lemma get_form_customer request request' w :
  user_is_superuser request = false ->
  user_is_superuser request' = false ->
  SecureRedirectView.get_form request w = SecureRedirectView.get_form request' w.
Proof.
  intros Hc Hc'. unfold SecureRedirectView.get_form.
  apply bind_ext; [done|]. intros [form|] w1; [done|].
  apply bind_ext; [|done]. by apply get_object_customer.
Qed.

(** X11. For anyone but a superuser the secure-redirect page depends on the
    session alone: two GET requests (requests without POST data) that differ
    in their query strings get the same response and leave the same store,
    so that a customer cannot choose the order through the query string. *)
Theorem secure_redirect_ignores_request_data request request' w :
  user_is_superuser request = false ->
  user_is_superuser request' = false ->
  POST request = [] ->
  POST request' = [] ->
  SecureRedirectView.as_view request w = SecureRedirectView.as_view request' w.
Proof.
  intros Hc Hc' _ _. unfold SecureRedirectView.as_view, SecureRedirectView.get.
  apply bind_ext; [by apply get_object_customer|]. intros order w1.
  apply bind_ext; [by apply get_form_customer|]. intros form w2.
  apply bind_ext; [done|]. intros txn w3.
  apply bind_ext; [|done]. unfold SecureRedirectView.super_get.
  apply bind_ext; [by apply get_object_customer|]. intros order' w4.
  apply bind_ext; [by apply get_form_customer|]. done.
Qed.

(** X12. Without an order the page is not rendered and nothing is recorded:
    a customer whose session has no [checkout_order_id] gets the 404 error
    [No order found]; when the session names an order that is not stored,
    [Order.DoesNotExist] escapes instead. *)
Theorem secure_redirect_without_order request w :
  user_is_superuser request = false ->
  let fresh := set_view_form None (set_view_order None w) in
  (session w !! "checkout_order_id" = None ->
   SecureRedirectView.as_view request w = (Raise (Http404 "No order found"), fresh))
  /\ (forall v z, session w !! "checkout_order_id" = Some v ->
                  py_int v = Ok z ->
                  (forall o, o ∈ orders w -> order_id o <> z) ->
                  SecureRedirectView.as_view request w = (Raise OrderDoesNotExist, fresh)).
Proof.
  intros Hc fresh. split.
  - intros Hsession.
    unfold SecureRedirectView.as_view, SecureRedirectView.get,
      SecureRedirectView.get_object, bind, gets. fold fresh. simpl.
    rewrite (superuser_order_customer request fresh Hc). simpl.
    by rewrite Hsession.
  - intros v z Hsession Hz Hnone.
    unfold SecureRedirectView.as_view, SecureRedirectView.get,
      SecureRedirectView.get_object, bind, gets. fold fresh. simpl.
    rewrite (superuser_order_customer request fresh Hc). simpl.
    rewrite Hsession. unfold Order_get_by_id, bind, lift. rewrite Hz.
    unfold Order_objects_get. simpl. by rewrite filter_none.
Qed.

(** X13. When the page finds its order, the response is the template with
    the order, the signed submit form of the order and the gateway's URL;
    the new SUBMIT record holds the order's number and total and the fields
    and the encoding of that same form; the checkout session is flushed and
    nothing else changes. *)
Theorem secure_redirect_records_the_rendered_form request w order w1 :
  SecureRedirectView.get_object request (set_view_form None (set_view_order None w))
  = (Ok order, w1) ->
  let form := Facade.get_submit_form_populated_with_order order ∅ in
  SecureRedirectView.as_view request w
  = (Ok (TemplateResponse "systempay/secure_redirect.html" order form Gateway_URL),
     set_session (checkout_session_flush (session w))
       (set_txns
          (txns w ++
           [{| id := S (length (txns w)); mode := MODE_SUBMIT;
               operation_type := data form !! "vads_operation_type";
               trans_id := data form !! "vads_trans_id";
               trans_date := data form !! "vads_trans_date";
               order_number := Some (PStr (number order));
               amount := total_incl_tax order;
               auth_result := data form !! "vads_auth_result";
               result := data form !! "vads_result";
               raw_request := urlencode (data form);
               error_message := None; date_created := now w |}])
          (set_view_form (Some form) (set_view_order (Some order) w)))).
Proof.
  intros Hobj form.
  pose proof (get_object_fresh request (set_view_form None (set_view_order None w)) eq_refl)
    as Hfresh.
  rewrite Hobj in Hfresh. destruct Hfresh as [_ ->].
  unfold SecureRedirectView.as_view, SecureRedirectView.get. unfold bind at 1.
  rewrite Hobj.
  unfold SecureRedirectView.super_get, SecureRedirectView.get_form,
    SecureRedirectView.get_object, Facade.save_submit_txn, Facade.save_txn,
    objects_create, bind, gets, modify, ret. simpl.
  fold form. by rewrite update_empty.
Qed.

(** X14. After [handle_successful_order] has put an order into the session,
    the secure-redirect page of that customer renders this order and records
    a SUBMIT transaction with its number and total, provided the order is
    the one stored under its id. *)
Theorem placed_order_reaches_secure_redirect request w order :
  user_is_superuser request = false ->
  filter (fun o => order_id o = order_id order) (orders w) = [order] ->
  let placed := PlaceOrderView.handle_successful_order order w in
  let form := Facade.get_submit_form_populated_with_order order ∅ in
  fst placed = Ok (HttpResponseRedirect (reverse "systempay:secure-redirect"))
  /\ snd placed = set_session (<["checkout_order_id" := PInt (order_id order)]> (session w)) w
  /\ fst (SecureRedirectView.as_view request (snd placed))
     = Ok (TemplateResponse "systempay/secure_redirect.html" order form Gateway_URL)
  /\ exists txn,
       txns (snd (SecureRedirectView.as_view request (snd placed))) = (txns w ++ [txn])%list
       /\ mode txn = MODE_SUBMIT
       /\ order_number txn = Some (PStr (number order))
       /\ amount txn = total_incl_tax order.
Proof.
  intros Hc Hstored placed form.
  split; [reflexivity|]. split; [reflexivity|].
  set (w0 := snd placed).
  assert (Hobj : SecureRedirectView.get_object request
                   (set_view_form None (set_view_order None w0))
                 = (Ok order, set_view_order (Some order)
                                (set_view_form None (set_view_order None w0)))).
  { unfold SecureRedirectView.get_object, bind, gets. simpl.
    rewrite (superuser_order_customer request _ Hc). simpl.
    rewrite lookup_insert_eq. unfold Order_get_by_id, bind, lift. simpl.
    unfold Order_objects_get. simpl. by rewrite Hstored. }
  assert (Hrun : exists txn w2,
             SecureRedirectView.as_view request w0
             = (Ok (TemplateResponse "systempay/secure_redirect.html" order form Gateway_URL), w2)
             /\ txns w2 = (txns w ++ [txn])%list
             /\ mode txn = MODE_SUBMIT
             /\ order_number txn = Some (PStr (number order))
             /\ amount txn = total_incl_tax order).
  { unfold SecureRedirectView.as_view, SecureRedirectView.get. unfold bind at 1.
    rewrite Hobj.
    unfold SecureRedirectView.super_get, SecureRedirectView.get_form,
      SecureRedirectView.get_object, Facade.save_submit_txn, Facade.save_txn,
      objects_create, bind, gets, modify, ret. simpl.
    eexists _, _. split; [reflexivity|]. split; [reflexivity|]. done. }
  destruct Hrun as (txn & w2 & Hrun & Htable & Hrecord).
  rewrite Hrun. simpl. split; [reflexivity|]. exists txn. by split.
Qed.

End SecureRedirectMore.

(** ** Finding the order of a return *)

Lemma filter_by_number s (l : list Order) :
  filter (fun o => is_Some (Some (PStr s)) /\ number o = py_str (Some (PStr s))) l
  = filter (fun o => number o = s) l.
Proof. apply list_filter_iff. intros o. simpl. split; [tauto|eauto]. Qed.

(** X15. For anyone but a superuser [get_order] depends on the order number
    sent: the POST data decide when they have the key, the query string
    otherwise; no number or an empty one gives the 404 error [No order
    found], a number of no stored order the 404 error of an outdated page, a
    number of one stored order that order; the world is never changed. *)
Theorem get_order_of_customer request w :
  user_is_superuser request = false ->
  let sent := match QueryDict.get "vads_order_id" (POST request) with
              | Some s => Some s
              | None => QueryDict.get "vads_order_id" (GET request)
              end in
  ResponseView.get_order request w
  = match sent with
    | None | Some EmptyString => (Raise (Http404 "No order found"), w)
    | Some s =>
        match filter (fun o => number o = s) (orders w) with
        | [] => (Raise (Http404 "The page requested seems outdated"), w)
        | [o] => (Ok o, w)
        | _ => (Raise OrderMultipleObjectsReturned, w)
        end
    end.
Proof.
  intros Hc sent. unfold ResponseView.get_order, bind at 1.
  rewrite (superuser_order_customer request w Hc).
  assert (Hsent : (if QueryDict.contains "vads_order_id" (POST request)
                   then QueryDict.get "vads_order_id" (POST request)
                   else if QueryDict.contains "vads_order_id" (GET request)
                        then QueryDict.get "vads_order_id" (GET request)
                        else None) = sent).
  { unfold sent, QueryDict.contains.
    destruct (QueryDict.get "vads_order_id" (POST request)); [done|].
    by destruct (QueryDict.get "vads_order_id" (GET request)). }
  rewrite Hsent. destruct sent as [[|a s]|]; try done.
  unfold try_except, Order_get_by_number, Order_objects_get.
  rewrite filter_by_number.
  destruct (filter _ (orders w)) as [|o [|o' l]]; simpl; try done.
  unfold raise. by rewrite set_exc_info_restore.
Qed.

(** X16. An order that a superuser names in the query string and that is not
    stored makes [get_order] fail with [Order.DoesNotExist]: this lookup is
    outside the [try] that turns a missing order into a 404 error. *)
Theorem get_order_of_superuser_unknown_number request w s :
  user_is_superuser request = true ->
  QueryDict.get "order_number" (GET request) = Some s ->
  (forall o, o ∈ orders w -> number o <> s) ->
  ResponseView.get_order request w = (Raise OrderDoesNotExist, w).
Proof.
  intros Hsu Hget Hnone.
  unfold ResponseView.get_order, superuser_order, bind, QueryDict.contains, getitem.
  rewrite Hsu, Hget. simpl.
  unfold Order_get_by_number, Order_objects_get. rewrite filter_by_number.
  by rewrite filter_none.
Qed.

(** ** The message of the return view *)

Lemma newer_first_transitive : Transitive ReturnResponseView.newer_first.
Proof. unfold ReturnResponseView.newer_first. intros a b c ? ?. lia. Qed.

Lemma newer_first_total : Total ReturnResponseView.newer_first.
Proof. unfold ReturnResponseView.newer_first. intros a b. lia. Qed.

(** The record that [latest_return] keeps is a RETURN record of the order,
    and none of the order's RETURN records is newer. *)
Lemma latest_return_newest order table txn rest :
  ReturnResponseView.latest_return order table = txn :: rest ->
  rest = []
  /\ txn ∈ table /\ mode txn = MODE_RETURN
  /\ order_number txn = Some (PStr (number order))
  /\ forall txn', txn' ∈ table -> mode txn' = MODE_RETURN ->
                  order_number txn' = Some (PStr (number order)) ->
                  date_created txn' <= date_created txn.
Proof.
  unfold ReturnResponseView.latest_return.
  set (P := fun txn => mode txn = MODE_RETURN
                       /\ order_number txn = Some (PStr (number order))).
  pose proof (@StronglySorted_merge_sort _ ReturnResponseView.newer_first _
                newer_first_transitive newer_first_total (filter P table)) as Hsorted.
  pose proof (merge_sort_Permutation ReturnResponseView.newer_first (filter P table)) as Hperm.
  destruct (merge_sort ReturnResponseView.newer_first (filter P table)) as [|first others]; [discriminate|].
  simpl. rewrite take_0. intros [= <- <-]. split; [done|].
  assert (Hin : first ∈ filter P table) by (rewrite <- Hperm; left).
  apply list_elem_of_filter in Hin as [[Hmode Hnumber] Hin].
  repeat split; try done.
  intros txn' Hin' Hmode' Hnumber'.
  assert (Hmem : txn' ∈ first :: others).
  { rewrite Hperm. apply list_elem_of_filter. by split. }
  apply StronglySorted_inv in Hsorted as [_ Hall].
  apply elem_of_cons in Hmem as [->|Hmem]; [lia|].
  rewrite Forall_forall in Hall. by apply Hall.
Qed.

Section ReturnViewMore.
Context `{External}.

(** X17. When one RETURN record of the order of a browser return was
    created after all the other RETURN records of that order, the message
    is decided by that newest record, wherever it stands in the table: the
    success text when it is complete, else the fixed text of a rejected
    payment; the order goes into the session and the thank-you page is the
    target. *)
Theorem return_view_reports_newest_record request w order w0 txn :
  ResponseView.get_order request w = (Ok order, w0) ->
  txn ∈ txns w -> mode txn = MODE_RETURN ->
  order_number txn = Some (PStr (number order)) ->
  (forall txn', txn' ∈ txns w -> mode txn' = MODE_RETURN ->
                order_number txn' = Some (PStr (number order)) ->
                txn' <> txn -> date_created txn' < date_created txn) ->
  ReturnResponseView.get_redirect_url request w
  = (Ok (reverse "checkout:thank-you"),
     set_session (<["checkout_order_id" := PInt (order_id order)]> (session w))
       (set_messages
          (messages w
           ++ [if is_complete txn
               then (SUCCESS, "Your payment has been successfully validated.")
               else (ERROR,
                     "Your payment has been rejected for the reason. You will not be charged. Contact the support for more details.")])
          w)).
Proof.
  intros Horder Hin Hmode Hnumber Hnewest.
  pose proof (get_order_spec request w) as Hspec. rewrite Horder in Hspec.
  destruct Hspec as [_ ->].
  destruct (ReturnResponseView.latest_return order (txns w)) as [|kept rest] eqn:Hlatest.
  - exfalso. unfold ReturnResponseView.latest_return in Hlatest.
    assert (Hmem : txn ∈ merge_sort ReturnResponseView.newer_first
                     (filter (fun txn => mode txn = MODE_RETURN
                                         /\ order_number txn = Some (PStr (number order)))
                        (txns w))).
    { rewrite merge_sort_Permutation. apply list_elem_of_filter. by split. }
    destruct (merge_sort _ _) as [|first others]; [by apply not_elem_of_nil in Hmem|].
    simpl in Hlatest. discriminate.
  - destruct (latest_return_newest order (txns w) kept rest Hlatest)
      as (_ & Hin' & Hmode' & Hnumber' & Hlast).
    assert (Hkept : kept = txn).
    { destruct (decide (kept = txn)) as [|Hne]; [done|]. exfalso.
      pose proof (Hnewest kept Hin' Hmode' Hnumber' Hne).
      pose proof (Hlast txn Hin Hmode Hnumber). lia. }
    subst kept.
    unfold ReturnResponseView.get_redirect_url, bind at 1. rewrite Horder.
    unfold bind at 1, gets. rewrite Hlatest.
    unfold ReturnResponseView.validated_message, ReturnResponseView.rejected_message.
    by destruct (is_complete txn).
Qed.

(** X18. The return view never changes the transaction table and never
    shows anything of a record: when it answers, it has added exactly one
    message, one of its three fixed texts; when it fails, nothing has
    changed. *)
Theorem return_view_shows_fixed_texts_only request w :
  match ReturnResponseView.get_redirect_url request w with
  | (Ok url, w') =>
      url = reverse "checkout:thank-you"
      /\ txns w' = txns w
      /\ exists level text,
           messages w' = (messages w ++ [(level, text)])%list
           /\ text ∈ [ReturnResponseView.pending_message;
                      ReturnResponseView.validated_message;
                      ReturnResponseView.rejected_message]
  | (Raise _, w') => w' = w
  end.
Proof.
  unfold ReturnResponseView.get_redirect_url, bind at 1.
  pose proof (get_order_spec request w) as Hspec.
  destruct (ResponseView.get_order request w) as [[order|e] w0]; [|done].
  destruct Hspec as [_ ->]. unfold bind at 1, gets.
  destruct (ReturnResponseView.latest_return order (txns w)) as [|txn rest].
  - simpl. repeat split. eexists _, _. split; [reflexivity|]. set_solver.
  - destruct (is_complete txn); simpl; repeat split;
      eexists _, _; (split; [reflexivity|]); set_solver.
Qed.

End ReturnViewMore.

(** ** Completing a payment *)

Section PaymentProperties.
Context `{External}.

Lemma Order_get_by_number_found v s order w :
  v = Some (PStr s) ->
  filter (fun o => number o = s) (orders w) = [order] ->
  Order_get_by_number v w = (Ok order, w).
Proof.
  intros -> Hfound. unfold Order_get_by_number, Order_objects_get.
  by rewrite filter_by_number, Hfound.
Qed.

(** X19. An accepted notification of a DEBIT or a CREDIT for the one stored
    order of its number is acknowledged with the plain response; exactly one
    payment source is added, of the type [systempay], with the record's
    amount as the amount debited (DEBIT) or refunded (CREDIT), nothing
    allocated, and the record's currency and reference; the payment details
    are saved for that order, and nothing is logged. *)
Theorem accepted_notification_adds_one_source request w txn w1 s order op :
  Facade.handle_request request w = (Ok txn, w1) ->
  QueryDict.get "vads_order_id" (POST request) = Some s ->
  filter (fun o => number o = s) (orders w) = [order] ->
  operation_type txn = Some (PStr op) ->
  op = "DEBIT" \/ op = "CREDIT" ->
  let source := {| source_type := "systempay"; currency := txn_currency txn;
                   amount_allocated := D0;
                   amount_debited := if String.eqb op "DEBIT" then Some (amount txn) else None;
                   amount_refunded := if String.eqb op "DEBIT" then None else Some (amount txn);
                   reference := txn_reference txn |} in
  let w' := snd (HandleIPN.post request w) in
  fst (HandleIPN.post request w) = Ok HttpResponse
  /\ payment_sources w' = (payment_sources w ++ [source])%list
  /\ payment_details w'
     = (payment_details w ++ [(order_id order, payment_sources w ++ [source])])%list
  /\ txns w' = (txns w ++ [txn])%list
  /\ logged w' = logged w
  /\ ("systempay", "SystemPay") ∈ source_types w'.
Proof.
  intros Hrun Hsent Hfound Hop Hkind source w'.
  destruct (handle_request_Ok request w txn w1 Hrun) as (Hw1 & _ & Hnumber & _).
  rewrite Hsent in Hnumber. simpl in Hnumber.
  assert (Hget : Order_get_by_number (order_number txn) w1 = (Ok order, w1)).
  { apply (Order_get_by_number_found _ s); [done|]. by rewrite Hw1. }
  subst w' source.
  unfold HandleIPN.post, HandleIPN.handle_ipn, bind, try_except. rewrite Hrun.
  unfold HandleIPN.complete_payment, bind. rewrite Hget.
  unfold HandleIPN.SourceType_get_or_create, HandleIPN.add_payment_source,
    HandleIPN.save_payment_details, bind, modify, ret.
  rewrite Hop, Hw1. unfold OPERATION_TYPE_DEBIT, OPERATION_TYPE_CREDIT.
  destruct Hkind as [-> | ->]; case_bool_decide; simpl;
    repeat split; try done; set_solver.
Qed.

(** X20. An accepted notification whose operation type is neither DEBIT nor
    CREDIT fails in [handle_ipn] with [PaymentError] naming the type, after
    the order and the source type have been looked up.  [post] then reads
    [inst.message]: when the exception has the attribute the answer is a bad
    request with that text; when it has not, as oscar's [PaymentError] in
    Python 3, [post] fails with [AttributeError].  In both cases no plain
    response is given, no payment source is added and no payment details
    are saved, but the row of the source type exists from then on. *)
Theorem unknown_operation_type_is_refused request w txn w1 s order :
  Facade.handle_request request w = (Ok txn, w1) ->
  QueryDict.get "vads_order_id" (POST request) = Some s ->
  filter (fun o => number o = s) (orders w) = [order] ->
  operation_type txn <> Some OPERATION_TYPE_DEBIT ->
  operation_type txn <> Some OPERATION_TYPE_CREDIT ->
  let e := PaymentError ("Unknown operation type '" ++ py_str (operation_type txn) ++ "'") in
  let w' := snd (HandleIPN.post request w) in
  fst (HandleIPN.handle_ipn request w) = Raise e
  /\ fst (HandleIPN.post request w)
     = match exn_message e with
       | Some message => Ok (HttpResponseBadRequest message)
       | None => Raise (AttributeError "message")
       end
  /\ payment_sources w' = payment_sources w
  /\ payment_details w' = payment_details w
  /\ logged w' = logged w
  /\ ("systempay", "SystemPay") ∈ source_types w'.
Proof.
  intros Hrun Hsent Hfound Hdebit Hcredit e w'.
  destruct (handle_request_Ok request w txn w1 Hrun) as (Hw1 & _ & Hnumber & _).
  rewrite Hsent in Hnumber. simpl in Hnumber.
  assert (Hget : Order_get_by_number (order_number txn) w1 = (Ok order, w1)).
  { apply (Order_get_by_number_found _ s); [done|]. by rewrite Hw1. }
  assert (Hipn : exists w2,
             HandleIPN.handle_ipn request w = (Raise e, w2)
             /\ payment_sources w2 = payment_sources w1
             /\ payment_details w2 = payment_details w1
             /\ logged w2 = logged w1
             /\ ("systempay", "SystemPay") ∈ source_types w2).
  { unfold HandleIPN.handle_ipn, bind, try_except. rewrite Hrun.
    unfold HandleIPN.complete_payment, bind. rewrite Hget.
    unfold HandleIPN.SourceType_get_or_create, bind, raise.
    rewrite (bool_decide_eq_false_2 _ Hdebit), (bool_decide_eq_false_2 _ Hcredit).
    case_bool_decide; simpl; eexists; (split; [reflexivity|]);
      repeat split; try done; set_solver. }
  destruct Hipn as (w2 & Hipn & Hsources & Hdetails & Hlogged & Htypes).
  rewrite Hw1 in Hsources, Hdetails, Hlogged. simpl in Hsources, Hdetails, Hlogged.
  subst w'. rewrite Hipn. split; [done|].
  unfold HandleIPN.post, bind, try_except. rewrite Hipn. simpl.
  destruct (exn_message e); simpl; repeat split; done.
Qed.

End PaymentProperties.

(** ** The properties on the test double *)

Lemma persisted_record_holds_the_payload_witness :
  let request := Demo.notification
                   [("vads_order_id", "ORD-1"); ("vads_amount", "2500");
                    ("vads_order_id", "ORD-100"); ("vads_result", "00");
                    ("signature", "0badc0de")] in
  exists txn,
    txns (snd (@Facade.handle_request Demo.external request Demo.empty_world)) = [txn]
    /\ order_number txn = Some (PStr "ORD-100")
    /\ amount txn = Dec false 25 0
    /\ error_message txn = Some "Signature not valid. Get '0badc0de' instead of 'c0ffee'".
Proof.
  intros request. eexists.
  rewrite (@persisted_record_holds_the_payload Demo.external request Demo.empty_world
             (Dec false 25 0)) by (vm_compute; reflexivity).
  split; [reflexivity|]. split; [vm_compute; reflexivity|].
  split; [reflexivity|]. vm_compute. reflexivity.
Defined.

Lemma invalid_form_is_refused_first_witness :
  let request := Demo.notification
                   [("vads_order_id", "ORD-100"); ("vads_amount", "2500");
                    ("signature", "0badc0de")] in
  fst (@Facade.handle_request Demo.external request Demo.empty_world)
  = Raise (SystemPayFormNotValid
             "The data received are not complete: vads_result: This field is required.. See the transaction record #1 for more details").
Proof.
  intros request.
  rewrite (@invalid_form_is_refused_first Demo.external request Demo.empty_world
             (Dec false 25 0)) by (vm_compute; reflexivity).
  vm_compute. reflexivity.
Defined.

Lemma return_form_last_value_wins_witness :
  let request := {| POST := [("vads_result", "05"); ("vads_result", "00")];
                    GET := [("vads_amount", "1")]; user_is_superuser := false |} in
  let form := Facade.get_return_form_populated_with_request request in
  data form !! "vads_result" = Some (PStr "00") /\ data form !! "vads_amount" = None.
Proof.
  intros request form.
  destruct (return_form_last_value_wins request "vads_result") as [Hlast _].
  destruct (return_form_last_value_wins request "vads_amount") as [_ Hnone].
  split.
  - apply (Hlast "00" [("vads_result", "05")] []); [reflexivity|]. apply not_elem_of_nil.
  - apply Hnone. simpl. set_solver.
Defined.

Lemma secure_redirect_ignores_request_data_witness :
  let checkout := set_session {["checkout_order_id" := PInt 7]} Demo.empty_world in
  @SecureRedirectView.as_view Demo.external
    {| POST := []; GET := [("order_number", "ORD-999"); ("order_id", "8")];
       user_is_superuser := false |} checkout
  = @SecureRedirectView.as_view Demo.external
      {| POST := []; GET := []; user_is_superuser := false |} checkout.
Proof.
  intros checkout.
  apply (@secure_redirect_ignores_request_data Demo.external); reflexivity.
Defined.

Lemma secure_redirect_without_order_witness :
  fst (@SecureRedirectView.as_view Demo.external
         {| POST := []; GET := []; user_is_superuser := false |} Demo.empty_world)
  = Raise (Http404 "No order found")
  /\ fst (@SecureRedirectView.as_view Demo.external
            {| POST := []; GET := []; user_is_superuser := false |}
            (set_session {["checkout_order_id" := PInt 8]} Demo.empty_world))
     = Raise OrderDoesNotExist.
Proof.
  split.
  - destruct (@secure_redirect_without_order Demo.external
                {| POST := []; GET := []; user_is_superuser := false |}
                Demo.empty_world eq_refl) as [Hnone _].
    rewrite Hnone; reflexivity.
  - destruct (@secure_redirect_without_order Demo.external
                {| POST := []; GET := []; user_is_superuser := false |}
                (set_session {["checkout_order_id" := PInt 8]} Demo.empty_world) eq_refl)
      as [_ Hstale].
    rewrite (Hstale (PInt 8) 8); [reflexivity | reflexivity | reflexivity |].
    intros o Ho. apply list_elem_of_singleton in Ho. subst o. discriminate.
Defined.

Lemma secure_redirect_records_the_rendered_form_witness :
  let checkout := set_session {["checkout_order_id" := PInt 7]} Demo.empty_world in
  let page := {| POST := []; GET := []; user_is_superuser := false |} in
  exists form txn,
    fst (@SecureRedirectView.as_view Demo.external page checkout)
    = Ok (TemplateResponse "systempay/secure_redirect.html" Demo.order_100 form
            "https://paiement.systempay.fr/vads-payment/")
    /\ txns (snd (@SecureRedirectView.as_view Demo.external page checkout)) = [txn]
    /\ raw_request txn = @urlencode Demo.external (data form)
    /\ session (snd (@SecureRedirectView.as_view Demo.external page checkout)) = ∅.
Proof.
  intros checkout page. eexists _, _.
  erewrite (@secure_redirect_records_the_rendered_form Demo.external page checkout
              Demo.order_100) by (vm_compute; reflexivity).
  repeat split; reflexivity.
Defined.

Lemma placed_order_reaches_secure_redirect_witness :
  let page := {| POST := []; GET := []; user_is_superuser := false |} in
  let placed := @PlaceOrderView.handle_successful_order Demo.external Demo.order_100
                  Demo.empty_world in
  exists txn,
    txns (snd (@SecureRedirectView.as_view Demo.external page (snd placed))) = [txn]
    /\ mode txn = MODE_SUBMIT
    /\ order_number txn = Some (PStr "ORD-100")
    /\ amount txn = Dec false 2599 (-2).
Proof.
  intros page placed.
  destruct (@placed_order_reaches_secure_redirect Demo.external page Demo.empty_world
              Demo.order_100 eq_refl eq_refl) as (_ & _ & _ & txn & Hrecord).
  exists txn. exact Hrecord.
Defined.

Lemma get_order_of_customer_witness :
  ResponseView.get_order
    {| POST := [("vads_order_id", "ORD-100")]; GET := [("vads_order_id", "ORD-404")];
       user_is_superuser := false |} Demo.empty_world
  = (Ok Demo.order_100, Demo.empty_world)
  /\ ResponseView.get_order
       {| POST := [("vads_order_id", EmptyString)]; GET := [("vads_order_id", "ORD-100")];
          user_is_superuser := false |} Demo.empty_world
     = (Raise (Http404 "No order found"), Demo.empty_world).
Proof.
  split; rewrite get_order_of_customer by reflexivity; reflexivity.
Defined.

Lemma get_order_of_superuser_unknown_number_witness :
  ResponseView.get_order
    {| POST := []; GET := [("order_number", "ORD-404")]; user_is_superuser := true |}
    Demo.empty_world
  = (Raise OrderDoesNotExist, Demo.empty_world).
Proof.
  apply (get_order_of_superuser_unknown_number _ _ "ORD-404"); [reflexivity|reflexivity|].
  intros o Ho. apply list_elem_of_singleton in Ho. subst o. discriminate.
Defined.

Lemma return_view_reports_newest_record_witness :
  let accepted := Demo.notification
                    [("vads_order_id", "ORD-100"); ("vads_amount", "2599");
                     ("vads_result", "00"); ("signature", "c0ffee")] in
  let refused := Demo.notification
                   [("vads_order_id", "ORD-100"); ("vads_amount", "2599");
                    ("vads_result", "05"); ("signature", "c0ffee")] in
  let first := snd (@Facade.handle_request Demo.external accepted Demo.empty_world) in
  let second := snd (@Facade.handle_request Demo.external refused (tick 1 first)) in
  let back := {| POST := [("vads_order_id", "ORD-100")]; GET := [];
                 user_is_superuser := false |} in
  (result <$> txns second) = [Some (PStr "00"); Some (PStr "05")]
  /\ (date_created <$> txns second) = [0; 1]
  /\ messages (snd (@ReturnResponseView.get_redirect_url Demo.external back second))
     = [(ERROR,
         "Your payment has been rejected for the reason. You will not be charged. Contact the support for more details.")].
Proof.
  intros accepted refused first second back.
  split; [vm_compute; reflexivity|]. split; [vm_compute; reflexivity|].
  assert (Htable : exists old new, txns second = [old; new]
                                   /\ date_created old = 0 /\ date_created new = 1
                                   /\ mode new = MODE_RETURN
                                   /\ order_number new = Some (PStr "ORD-100")
                                   /\ @is_complete Demo.external new = false).
  { eexists _, _. split; [vm_compute; reflexivity|]. repeat split. }
  destruct Htable as (old & new & Htable & Hold & Hnew & Hmode & Hnumber & Hcomplete).
  rewrite (@return_view_reports_newest_record Demo.external back second
             Demo.order_100 second new).
  - rewrite Hcomplete. reflexivity.
  - vm_compute. reflexivity.
  - rewrite Htable. right. left.
  - exact Hmode.
  - exact Hnumber.
  - intros txn' Hin _ _ Hne. rewrite Htable in Hin.
    apply elem_of_cons in Hin as [->|Hin]; [lia|].
    apply list_elem_of_singleton in Hin. contradiction.
Defined.

Lemma accepted_notification_adds_one_source_witness :
  let request := Demo.notification
                   [("vads_order_id", "ORD-100"); ("vads_amount", "2500");
                    ("vads_result", "00"); ("vads_operation_type", "CREDIT");
                    ("vads_trans_id", "000123"); ("signature", "c0ffee")] in
  fst (@HandleIPN.post Demo.external request Demo.empty_world) = Ok HttpResponse
  /\ payment_sources (snd (@HandleIPN.post Demo.external request Demo.empty_world))
     = [{| source_type := "systempay"; currency := PInt 978; amount_allocated := D0;
           amount_debited := None; amount_refunded := Some (Dec false 25 0);
           reference := "000123" |}].
Proof.
  intros request.
  edestruct (@accepted_notification_adds_one_source Demo.external request Demo.empty_world)
    as (Hresponse & Hsources & _).
  - vm_compute. reflexivity.
  - reflexivity.
  - reflexivity.
  - reflexivity.
  - right. reflexivity.
  - split; [exact Hresponse|]. rewrite Hsources. reflexivity.
Defined.

Lemma unknown_operation_type_is_refused_witness :
  let request := Demo.notification
                   [("vads_order_id", "ORD-100"); ("vads_amount", "2500");
                    ("vads_result", "00"); ("vads_operation_type", "VERIFICATION");
                    ("signature", "c0ffee")] in
  fst (@HandleIPN.handle_ipn Demo.external request Demo.empty_world)
  = Raise (PaymentError "Unknown operation type 'VERIFICATION'")
  /\ fst (@HandleIPN.post Demo.external request Demo.empty_world)
     = Raise (AttributeError "message")
  /\ payment_sources (snd (@HandleIPN.post Demo.external request Demo.empty_world)) = []
  /\ source_types (snd (@HandleIPN.post Demo.external request Demo.empty_world))
     = [("systempay", "SystemPay")].
Proof.
  intros request.
  edestruct (@unknown_operation_type_is_refused Demo.external request Demo.empty_world)
    as (Hipn & Hresponse & Hsources & _).
  - vm_compute. reflexivity.
  - reflexivity.
  - reflexivity.
  - discriminate.
  - discriminate.
  - split; [rewrite Hipn; reflexivity|].
    split; [rewrite Hresponse; reflexivity|]. split; [exact Hsources|].
    vm_compute. reflexivity.
Defined.
